(** * DRAGON-X prediction engine (src/app.py): a shallow embedding

    The Python program keeps two bounded deques (trends, predictions),
    runs [dragonx_engine] over them once per polling cycle and grades the
    front prediction against the newly fetched observation.  This file
    embeds [get_bs], [detect_alternating], [count_streak], the pattern
    catalogue, [dragonx_engine] and [prediction_job].

    Modelling conventions.
    - Categories ['B'] / ['S'] are the inductive [bs]; a stored prediction's
      ['bs'] field is [pbs] ([Pred c] or [SKIP]); its ['num'] field is
      [option nat] ([None] stands for the string ['-'] of the SKIP verdict).
    - Confidence values are [Z].  Float comparisons of the source are written
      as exact integer comparisons; the ratios involved have denominators of
      at most 30, so the doubles the source computes never cross the
      thresholds differently (the only exact ties, [3/5] vs [0.6],
      [18/25] vs [0.72] and [7/25] vs [0.28], round to the very double of
      the literal, and compare as the exact rationals do).
    - Scores of the number selection are multiplied by 10 ([1] -> 10,
      [1.2] -> 12, [0.7] -> 7) so that they are integers; the order between
      scores is unchanged.
    - Python exceptions raised inside [dragonx_engine] make the engine return
      [None]: [counts[n]] with [n >= 10], and [natural_order[-1]] on an
      empty category sequence (only possible when the caller passes fewer
      categories than values). *)

From Stdlib Require Import List String Ascii Arith ZArith NArith Lia Bool Sorted.
From Stdlib Require Import DecimalString DecimalNat.
Import ListNotations.
Open Scope list_scope.
Open Scope string_scope.
Open Scope nat_scope.

(** ** Data *)

(** ['B'] (Big, [num >= 5]) and ['S'] (Small). *)
Inductive bs := Big | Small.

Definition bs_eqb (x y : bs) : bool :=
  match x, y with Big, Big | Small, Small => true | _, _ => false end.

Definition bs_str (c : bs) : string := match c with Big => "B" | Small => "S" end.

(** ['S' if x == 'B' else 'B'] *)
Definition opposite (c : bs) : bs := match c with Big => Small | Small => Big end.

Inductive pbs := Pred (c : bs) | SKIP.

Definition pbs_eqb (x y : pbs) : bool :=
  match x, y with
  | Pred a, Pred b => bs_eqb a b
  | SKIP, SKIP => true
  | _, _ => false
  end.

(** The ['result'] field: ["P"] (pending), ["Win"], ["Lose"], ["Jackpot"]. *)
Inductive result := P | Win | Lose | Jackpot.

Definition result_eqb (x y : result) : bool :=
  match x, y with
  | P, P | Win, Win | Lose, Lose | Jackpot, Jackpot => true
  | _, _ => false
  end.

Record trend := mkTrend { t_period : string; t_num : nat; t_bs : bs }.

Record pred := mkPred {
  p_period : string; p_bs : pbs; p_num : option nat; p_confidence : Z;
  p_logic : string; p_bias : string; p_result : result }.

(** The dictionary returned by [dragonx_engine]. *)
Record out := mkOut {
  o_bs : pbs; o_num : option nat; o_confidence : Z; o_logic : string;
  o_bias : string }.

(** ** Python helpers *)

(** [l[-k:]] for [k > 0]: the whole list when it is shorter than [k]. *)
Definition lastn {A} (k : nat) (l : list A) : list A := skipn (List.length l - k) l.

(** [str(n)] for [n >= 0], and [str(z)] for any integer. *)
Definition str_of_int (n : nat) : string :=
  NilZero.string_of_uint (Nat.to_uint n).

Definition str_of_Z (z : Z) : string :=
  if (z <? 0)%Z then "-" ++ str_of_int (Z.to_nat (- z)) else str_of_int (Z.to_nat z).

(** [int(s)] for a [str] [s], as CPython computes it
    ([PyLong_FromUnicodeObject]).  A Rocq [string] holds the UTF-8 encoding
    of the Python string (as the literals of this file do); it is decoded
    into code points first.  CPython then rewrites every character at or
    above U+007F: white space becomes [' '], a decimal digit of any script
    its ASCII digit, anything else ['?'] (which no parse accepts), and
    parses the result with [PyLong_FromString] in base 10: blanks, an
    optional sign, digits with single underscores between them, blanks, and
    nothing else.  The tables are those of Unicode 14.0 ([str.isspace],
    [unicodedata.decimal]).  The conversion length limit of recent Python
    versions ([sys.set_int_max_str_digits]) is taken as switched off. *)
Definition cont_byte (b : N) : bool := (128 <=? b)%N && (b <? 192)%N.

Fixpoint utf8_decode (l : list N) : list N :=
  match l with
  | [] => []
  | b :: r =>
      if (b <? 128)%N then b :: utf8_decode r
      else if (192 <=? b)%N && (b <? 224)%N then
        match r with
        | c1 :: r1 =>
            if cont_byte c1 then ((b - 192) * 64 + (c1 - 128))%N :: utf8_decode r1
            else 65533%N :: utf8_decode r
        | [] => [65533%N]
        end
      else if (224 <=? b)%N && (b <? 240)%N then
        match r with
        | c1 :: c2 :: r2 =>
            if cont_byte c1 && cont_byte c2
            then ((b - 224) * 4096 + (c1 - 128) * 64 + (c2 - 128))%N :: utf8_decode r2
            else 65533%N :: utf8_decode r
        | _ => 65533%N :: utf8_decode r
        end
      else if (240 <=? b)%N && (b <? 248)%N then
        match r with
        | c1 :: c2 :: c3 :: r3 =>
            if cont_byte c1 && cont_byte c2 && cont_byte c3
            then ((b - 240) * 262144 + (c1 - 128) * 4096 + (c2 - 128) * 64
                  + (c3 - 128))%N :: utf8_decode r3
            else 65533%N :: utf8_decode r
        | _ => 65533%N :: utf8_decode r
        end
      else 65533%N :: utf8_decode r
  end.

(** The code points of the string. *)
Definition code_points (s : string) : list N := utf8_decode (map N_of_ascii (list_ascii_of_string s)).

Definition unicode_spaces : list N :=
  [9; 10; 11; 12; 13; 28; 29; 30; 31; 32; 133; 160; 5760; 8192; 8193; 8194; 8195;
   8196; 8197; 8198; 8199; 8200; 8201; 8202; 8232; 8233; 8239; 8287; 12288]%N.

Definition decimal_blocks : list N :=
  [48; 1632; 1776; 1984; 2406; 2534; 2662; 2790; 2918; 3046; 3174; 3302; 3430;
   3558; 3664; 3792; 3872; 4160; 4240; 6112; 6160; 6470; 6608; 6784; 6800; 6992;
   7088; 7232; 7248; 42528; 43216; 43264; 43472; 43504; 43600; 44016; 65296;
   66720; 68912; 69734; 69872; 69942; 70096; 70384; 70736; 70864; 71248; 71360;
   71472; 71904; 72016; 72784; 73040; 73120; 92768; 92864; 93008; 120782; 120792;
   120802; 120812; 120822; 123200; 123632; 125264; 130032]%N.

Definition uni_isspace (ch : N) : bool := existsb (N.eqb ch) unicode_spaces.

Fixpoint uni_decimal_in (blocks : list N) (ch : N) : option nat :=
  match blocks with
  | [] => None
  | s :: bl => if (s <=? ch)%N && (ch <? s + 10)%N then Some (N.to_nat (ch - s))
               else uni_decimal_in bl ch
  end.

Definition transform_char (ch : N) : nat :=
  if (ch <? 127)%N then N.to_nat ch
  else if uni_isspace ch then 32
  else match uni_decimal_in decimal_blocks ch with
       | Some d => 48 + d
       | None => 63
       end.

Definition c_isspace (c : nat) : bool := ((9 <=? c) && (c <=? 13)) || (c =? 32).

Fixpoint skip_space (l : list nat) : list nat :=
  match l with
  | c :: r => if c_isspace c then skip_space r else l
  | [] => []
  end.

Definition c_isdigit (c : nat) : bool := (48 <=? c) && (c <=? 57).

Fixpoint scan_digits (acc : Z) (ndigits : nat) (prev_us : bool) (l : list nat)
    : option (Z * nat * list nat) :=
  match l with
  | c :: r =>
      if c_isdigit c then scan_digits (acc * 10 + Z.of_nat (c - 48))%Z (S ndigits) false r
      else if c =? 95 then (if prev_us then None else scan_digits acc ndigits true r)
      else if prev_us then None else Some (acc, ndigits, l)
  | [] => if prev_us then None else Some (acc, ndigits, [])
  end.

Definition long_from_string (buf : list nat) : option Z :=
  let l1 := skip_space buf in
  let '(sign, l2) :=
    match l1 with
    | 43 :: r => (1%Z, r)
    | 45 :: r => ((-1)%Z, r)
    | _ => (1%Z, l1)
    end in
  match l2 with
  | 95 :: _ => None
  | _ =>
      match scan_digits 0 0 false l2 with
      | Some (v, S _, l3) =>
          match skip_space l3 with
          | [] => Some (sign * v)%Z
          | _ :: _ => None
          end
      | _ => None
      end
  end.

Definition int_of_string (s : string) : option Z :=
  long_from_string (map transform_char (code_points s)).

(** The decimal digits of a [Decimal.uint], most significant first. *)
Fixpoint uint_digits (d : Decimal.uint) : list nat :=
  match d with
  | Decimal.Nil => []
  | Decimal.D0 d => 0 :: uint_digits d
  | Decimal.D1 d => 1 :: uint_digits d
  | Decimal.D2 d => 2 :: uint_digits d
  | Decimal.D3 d => 3 :: uint_digits d
  | Decimal.D4 d => 4 :: uint_digits d
  | Decimal.D5 d => 5 :: uint_digits d
  | Decimal.D6 d => 6 :: uint_digits d
  | Decimal.D7 d => 7 :: uint_digits d
  | Decimal.D8 d => 8 :: uint_digits d
  | Decimal.D9 d => 9 :: uint_digits d
  end.

(** Python's [needle in haystack] on strings. *)
Fixpoint str_contains (needle hay : string) : bool :=
  match hay with
  | EmptyString => String.eqb needle EmptyString
  | String _ rest => String.prefix needle hay || str_contains needle rest
  end.

(** [''.join(seq)] for a sequence of categories. *)
Fixpoint join (l : list bs) : string :=
  match l with [] => "" | c :: l' => bs_str c ++ join l' end.

(** A Python dict as an association list: setting an existing key
    overwrites its value in place. *)
Definition dict := list (string * bs).

Fixpoint dict_set (m : dict) (k : string) (v : bs) : dict :=
  match m with
  | [] => [(k, v)]
  | (k', v') :: m' =>
      if String.eqb k k' then (k, v) :: m' else (k', v') :: dict_set m' k v
  end.

Fixpoint dict_get (m : dict) (k : string) : option bs :=
  match m with
  | [] => None
  | (k', v) :: m' => if String.eqb k k' then Some v else dict_get m' k
  end.

(** [collections.deque(maxlen=cap).appendleft(x)]: the rightmost element
    is dropped when the deque is full. *)
Definition appendleft {A} (cap : nat) (x : A) (l : list A) : list A :=
  firstn cap (x :: l).

(** ** Helpers of app.py *)

Definition get_bs (num : nat) : bs := if 5 <=? num then Big else Small.

Fixpoint adjacent_equal (seq : list bs) : bool :=
  match seq with
  | x :: ((y :: _) as t) => bs_eqb x y || adjacent_equal t
  | _ => false
  end.

Definition detect_alternating (seq : list bs) : option bs :=
  if List.length seq <? 3 then None
  else if adjacent_equal seq then None
  else Some (opposite (last seq Big)).

(** [count_streak]: walk back from the last element while it repeats. *)
Fixpoint run_length (c : bs) (l : list bs) : nat :=
  match l with
  | x :: l' => if bs_eqb x c then S (run_length c l') else 0
  | [] => 0
  end.

Definition count_streak (seq : list bs) : option bs * nat :=
  match rev seq with
  | [] => (None, 0)
  | last :: before => (Some last, 1 + run_length last before)
  end.

(** ** Pattern catalogue ([STREAK_BREAK_PATTERNS], verbatim) *)

Definition STREAK_BREAK_PATTERNS : list string := [
  "BBBS"; "BBSB"; "BSBB"; "SBBB"; "SSSB"; "SSBS"; "SBSS"; "BSSS";
  "BBSS"; "BSSB"; "SSBB"; "SBBS"; "BSBS"; "SBSB"; "BBBB"; "SSSS";
  "BBBBBS"; "BBBBSB"; "BBBSBB"; "BBSBBB"; "BSBBBB"; "SBBBBB";
  "SSSSSB"; "SSSSBS"; "SSSBSS"; "SSBSSS"; "SBSSSS"; "BSSSSS";
  "BBBSSB"; "BBSSBB"; "BSSBBB"; "SSBBBS"; "SBBBSS"; "BBBSSS";
  "BBSSSB"; "BSSSBB"; "SSSBBB"; "SSBBBS"; "SBBBSS"; "BBSSBS";
  "BSSBBS"; "SSBBSS"; "SBBSSB"; "BBSSBB"; "BSSBSS"; "SSBBSB";
  "BBSBSB"; "SBBSBB"; "BSBSBS"; "SBSBSB"; "BBSSBB"; "SSBBSS";
  "BSSBSS"; "SBBSSB"; "BBSSBS"; "SBSSBB"; "BSSBBB"; "SBBSBS";
  "SSSBBS"; "BBSSSB"; "SBBBSB"; "BBBBBBB"; "SSSSSSS"; "BBBBBBS"; "SSSSSSB";
  "BBBBSBB"; "SSSBSSS"; "BBBSBBB"; "BBSBBBB"; "BSBBBBB"; "SSBBSSB"; "SBSSBBS"; "SSBBSBS";
  "BBSBBSB"; "SBSBSBS"; "BSSBSSB"; "SSBBSSS"; "BBSSSSS"; "SSBBBSS"; "BSSBBBS"; "SSBSSBB";
  "BBBBBB"; "SSSSSS"; "BBBSSB"; "SSBBSS"; "BBSBSB"; "SBBSBB"; "BSBSBS"; "SBSBSB";
  "BBSSBB"; "SSBBSS"; "BSSBSS"; "SBBSSB"; "BBSSBS"; "SBSSBB"; "BSSBBB"; "SBBSBS";
  "SSSBBS"; "BBSSSB"; "SBBBSB"; "BBSSB"; "SSBBS"; "BSBBS"; "SBSBB";
  "BBBSS"; "SSSBB"; "SBSSB"; "BSSSB"; "SBBSB"; "SSBSS"
].

(** ** [dragonx_engine] *)

(** [pattern_map[p] = 'S' if p[0] == 'B' else 'B'] *)
Definition flip_first (p : string) : bs :=
  match p with
  | String c _ => if Ascii.eqb c "B"%char then Small else Big
  | EmptyString => Big
  end.

(** The dict built for one [length] of [range(10, 4, -1)]. *)
Definition build_pattern_map (len : nat) : dict :=
  fold_left
    (fun pattern_map p =>
       if String.length p =? len then dict_set pattern_map p (flip_first p)
       else pattern_map)
    STREAK_BREAK_PATTERNS [].

Definition maps : list (nat * dict * string) :=
  map (fun len => (len, build_pattern_map len, str_of_int len ++ "-digit"))
    [10; 9; 8; 7; 6; 5].

(** The [for length, pattern_map, name in maps] loop, [break] at the first
    hit; returns [(prediction, used_pattern)]. *)
Fixpoint find_pattern (natural_order : list bs)
    (ms : list (nat * dict * string)) : option (bs * string) :=
  match ms with
  | [] => None
  | (len, pattern_map, name) :: ms' =>
      if len <=? List.length natural_order then
        let key := join (lastn len natural_order) in
        match dict_get pattern_map key with
        | Some prediction =>
            Some (prediction,
                  name ++ " MATCH: " ++ key ++ " → " ++ bs_str prediction)
        | None => find_pattern natural_order ms'
        end
      else find_pattern natural_order ms'
  end.

Definition count_bs (c : bs) (l : list bs) : nat :=
  List.length (filter (bs_eqb c) l).

(** [round(100 * a / b)], Python rounding half to even. *)
Definition round_pct (a b : nat) : nat :=
  let q := (100 * a) / b in
  let r := (100 * a) mod b in
  if 2 * r <? b then q
  else if b <? 2 * r then q + 1
  else if Nat.even q then q else q + 1.

(** [=== FALLBACK LOGIC ===]; the big ratio is kept as the fraction
    [a / b] ([0.5] is [1 / 2]).  [None]: [natural_order[-1]] raises
    [IndexError] on an empty sequence. *)
Definition fallback (natural_order : list bs) (streak : option bs * nat)
    : option (bs * string) :=
  let '(value, cnt) := streak in
  if (4 <=? cnt) && (cnt <? 6) then
    Some (match value with Some Big => Small | _ => Big end,
          "SHORT_STREAK_REVERSAL (" ++ str_of_int cnt ++ "x)")
  else
    match detect_alternating (lastn 10 natural_order) with
    | Some alt => Some (alt, "ALTERNATING")
    | None =>
        let window := lastn 30 natural_order in
        let '(a, b) :=
          match window with
          | [] => (1, 2)
          | _ => (count_bs Big window, List.length window)
          end in
        if 72 * b <=? 100 * a then
          Some (Big, "BIG DOMINANCE (" ++ str_of_int (round_pct a b) ++ "%)")
        else if 100 * a <=? 28 * b then
          Some (Small, "SMALL DOMINANCE (" ++ str_of_int (round_pct (b - a) b) ++ "%)")
        else
          match natural_order with
          | [] => None
          | _ :: _ => Some (last natural_order Big, "MOMENTUM")
          end
    end.

(** [=== CONFIDENCE ===]: the substring tests on [used_pattern]. *)
Definition base_conf (used_pattern : string) : Z :=
  if str_contains "10-digit" used_pattern then 98%Z
  else if str_contains "9-digit" used_pattern then 97%Z
  else if str_contains "8-digit" used_pattern then 96%Z
  else if str_contains "7-digit" used_pattern then 94%Z
  else if str_contains "6-digit" used_pattern then 90%Z
  else if str_contains "DOMINANCE" used_pattern then 85%Z
  else if str_contains "MOMENTUM" used_pattern then 75%Z
  else if str_contains "SHORT_STREAK" used_pattern then 80%Z
  else if str_contains "ALTERNATING" used_pattern then 82%Z
  else 60%Z.

Definition is_lose (p : pred) : bool := result_eqb (p_result p) Lose.

Definition is_graded (p : pred) : bool := negb (result_eqb (p_result p) P).

(** [loss_rate > 0.6] over [recent_preds] (0 when there is none). *)
Definition loss_penalty (predictions : list pred) : bool :=
  let recent_preds := firstn 10 (filter is_graded predictions) in
  match recent_preds with
  | [] => false
  | _ => 3 * List.length recent_preds <? 5 * List.length (filter is_lose recent_preds)
  end.

Definition confidence_of (predictions : list pred) (base : Z) : Z :=
  let base := if loss_penalty predictions then Z.max 55 (base - 15) else base in
  Z.min 98 (Z.max 55 base).

(** [=== SMART NUMBER SELECTION ===]: ten times the source's score. *)
Definition score (counted last_10_nums : list nat) (even_bias : bool) (n : nat)
    : nat :=
  10 + 10 * count_occ Nat.eq_dec counted n
  + (if existsb (Nat.eqb n) last_10_nums then 12 else 0)
  + (if (even_bias && Nat.even n) || (negb even_bias && Nat.odd n) then 7 else 0).

(** [weighted.sort(key=score, reverse=True)]: stable, so equal scores keep
    their pool order. *)
Fixpoint insert_desc (x : nat * nat) (l : list (nat * nat)) : list (nat * nat) :=
  match l with
  | [] => [x]
  | y :: l' => if snd y <=? snd x then x :: l else y :: insert_desc x l'
  end.

Definition sort_desc (l : list (nat * nat)) : list (nat * nat) :=
  fold_right insert_desc [] l.

Definition opt_nat_eqb (x y : option nat) : bool :=
  match x, y with
  | Some a, Some b => Nat.eqb a b
  | None, None => true
  | _, _ => false
  end.

(** [pool = list(range(5, 10)) if prediction == 'B' else list(range(0, 5))] *)
Definition pool_of (prediction : bs) : list nat :=
  if bs_eqb prediction Big then seq 5 5 else seq 0 5.

Definition select_num (recent_numbers : list nat) (predictions : list pred)
    (prediction : bs) : option nat :=
  let pool := pool_of prediction in
  let counted := lastn 60 recent_numbers in
  if negb (forallb (fun n => n <? 10) counted) then None (* counts[n]: IndexError *)
  else
    let last_10_nums := lastn 10 recent_numbers in
    let even_bias := 5 <? List.length (filter Nat.even last_10_nums) in
    let weighted := map (fun n => (n, score counted last_10_nums even_bias n)) pool in
    let weighted :=
      match predictions with
      | p0 :: _ =>
          if is_lose p0 then
            filter (fun '(n, _) => negb (opt_nat_eqb (Some n) (p_num p0))) weighted
          else weighted
      | [] => weighted
      end in
    match sort_desc weighted with
    | (n, _) :: _ => Some n
    | [] => Some (hd 0 pool)
    end.

(** [=== BIAS ===] *)
Definition bias_of (used_pattern : string) : string :=
  if str_contains "DOMINANCE" used_pattern || str_contains "MOMENTUM" used_pattern
  then "MOMENTUM_BIAS"
  else if str_contains "STREAK" used_pattern then "REVERSAL_BIAS"
  else if str_contains "digit" used_pattern then "PATTERN_BIAS"
  else if str_contains "ALTERNATING" used_pattern then "CHOP_BIAS"
  else "NEUTRAL".

(** The number of [recent_losses] (the first three Lose predictions) that
    bet against the streak. *)
Definition flip_losses (value : option bs) (predictions : list pred) : nat :=
  let recent_losses := firstn 3 (filter is_lose predictions) in
  List.length
    (filter (fun p => match value, p_bs p with
                      | Some Big, Pred Small | Some Small, Pred Big => true
                      | _, _ => false
                      end) recent_losses).

Definition skip_out : out :=
  mkOut SKIP None 0 "🔥 HIGH-RISK DRAGON DETECTED! SKIP ZONE! 🔥" "DRAGON_RISK".

Definition cold_start_out (recent_numbers : list nat) : out :=
  let high :=
    match recent_numbers with
    | [] => true                                   (* avg = 5 *)
    | _ => 5 * List.length recent_numbers <=? list_sum recent_numbers
    end in
  mkOut (Pred (if high then Big else Small)) (Some 5) 55 "STATISTICAL_FALLBACK"
    "NEUTRAL".

Definition dragonx_engine (recent_numbers : list nat) (recent_bs : list bs)
    (predictions : list pred) : option out :=
  if List.length recent_numbers <? 10 then Some (cold_start_out recent_numbers)
  else
    let natural_order := rev recent_bs in
    let streak := count_streak natural_order in
    if (6 <=? snd streak) && (2 <=? flip_losses (fst streak) predictions)
    then Some skip_out
    else
      match
        match find_pattern natural_order maps with
        | Some r => Some r
        | None => fallback natural_order streak
        end
      with
      | None => None
      | Some (prediction, used_pattern) =>
          let confidence := confidence_of predictions (base_conf used_pattern) in
          match select_num recent_numbers predictions prediction with
          | None => None
          | Some final_num =>
              Some (mkOut (Pred prediction) (Some final_num) confidence used_pattern
                      (bias_of used_pattern))
          end
      end.

(** ** [prediction_job] *)

(** [data[0]['content']]; a missing key is [None]. *)
Record content := mkContent { issueNumber : option string; number : option nat }.

(** The decoded body of the HTTP response. *)
Inductive body :=
  | NotJson                                 (** [res.json()] raises *)
  | NotList                                 (** any JSON value but a list *)
  | JList (items : list (option content)).  (** [None]: item without ['content'] *)

Inductive response :=
  | NetworkError
  | RequestTimeout
  | HttpError (status : nat)                (** [raise_for_status()] raises *)
  | Ok (b : body).

Record state := mkState { trends : list trend; predictions : list pred }.

Definition empty_state : state := mkState [] [].

(** Lines 247-255: grade [state["predictions"][0]] in place. *)
Definition grade (last_pred : pred) (number : nat) (c : bs) : result :=
  if pbs_eqb (p_bs last_pred) (Pred c) && opt_nat_eqb (p_num last_pred) (Some number)
  then Jackpot
  else if pbs_eqb (p_bs last_pred) (Pred c) then Win
  else Lose.

Definition set_result (p : pred) (r : result) : pred :=
  mkPred (p_period p) (p_bs p) (p_num p) (p_confidence p) (p_logic p) (p_bias p) r.

Definition grade_front (period : string) (number : nat) (c : bs)
    (preds : list pred) : list pred :=
  match preds with
  | last_pred :: rest =>
      if String.eqb (p_period last_pred) period
      then set_result last_pred (grade last_pred number c) :: rest
      else preds
  | [] => []
  end.

(** One run of [prediction_job]: every exception is caught, and whatever was
    mutated before it stays mutated.  [save_history] (persistence) is outside
    the model. *)
Definition prediction_job (r : response) (st : state) : state :=
  match r with
  | Ok (JList (Some latest :: _)) =>
      match issueNumber latest, number latest with
      | Some period, Some num =>
          let c := get_bs num in
          let trends' := appendleft 1000 (mkTrend period num c) (trends st) in
          let preds := grade_front period num c (predictions st) in
          match int_of_string period with
          | None => mkState trends' preds                (* int(period) raises *)
          | Some k =>
              let next_period := str_of_Z (k + 1)%Z in
              if existsb (fun p => String.eqb (p_period p) next_period) preds
              then mkState trends' preds
              else
                match dragonx_engine (map t_num trends') (map t_bs trends') preds with
                | None => mkState trends' preds            (* engine raises *)
                | Some o =>
                    mkState trends'
                      (appendleft 200
                         (mkPred next_period (o_bs o) (o_num o) (o_confidence o)
                            (o_logic o) (o_bias o) P) preds)
                end
          end
      | _, _ => st                                       (* KeyError *)
      end
  | _ => st           (* request error, bad status, bad JSON, not a non-empty list,
                         item without 'content' *)
  end.

(** A well-formed feed answer for period [p] with value [n]. *)
Definition obs_response (p n : nat) : response :=
  Ok (JList [Some (mkContent (Some (str_of_int p)) (Some n))]).

(** Successive cycles, each fed one well-formed observation. *)
Definition run (obs : list (nat * nat)) (st : state) : state :=
  fold_left (fun st '(p, n) => prediction_job (obs_response p n) st) obs st.

(** Cycles fed an arbitrary sequence of feed answers. *)
Definition run_all (rs : list response) (st : state) : state :=
  fold_left (fun st r => prediction_job r st) rs st.

(** ** Flask endpoints *)


(** * Facts about the embedding *)

(** Spec-side reading of the lookup loop's body for one [length]. *)
Definition suffix_match (len : nat) (natural_order : list bs) : option bs :=
  if len <=? List.length natural_order
  then dict_get (build_pattern_map len) (join (lastn len natural_order))
  else None.

(** ** Concrete data and invariants used below *)

Definition pattern_entry (len : nat) (k : string) (v : bs) : Prop :=
  In k STREAK_BREAK_PATTERNS /\ String.length k = len /\ v = flip_first k.

Definition starts_bs (k : string) : bool :=
  match k with
  | String c _ => Ascii.eqb c "B"%char || Ascii.eqb c "S"%char
  | EmptyString => false
  end.

(** A Lose prediction that bet on Small, for the examples below. *)
Definition lost_small (period : string) : pred :=
  mkPred period (Pred Small) (Some 2) 90 "6-digit MATCH: BBSSBB → S" "PATTERN_BIAS" Lose.

(** Natural order B B B S B S S B B S, newest first, with values 7 (Big) and
    2 (Small). *)
Definition hist7_bs : list bs :=
  [Small; Big; Big; Small; Small; Big; Small; Big; Big; Big].

Definition hist7_nums : list nat := [2; 7; 7; 2; 2; 7; 2; 7; 7; 7].

Definition c6_pred : pred :=
  mkPred "101" (Pred Big) (Some 7) 90 "6-digit MATCH: SSBBSB → B" "PATTERN_BIAS" P.

(** Natural order B B B B B B B B S S (newest first below): its longest
    catalogue suffix is BBBSS. *)
Definition hist5_bs : list bs := [Small; Small; Big; Big; Big; Big; Big; Big; Big; Big].

Definition hist5_nums : list nat := [2; 2; 7; 7; 7; 7; 7; 7; 7; 7].

(** Every category sequence of length at most [k]. *)
Fixpoint all_upto (k : nat) : list (list bs) :=
  match k with
  | 0 => [[]]
  | S k' => [] :: flat_map (fun l => [Big :: l; Small :: l]) (all_upto k')
  end.

(** A stored prediction whose confidence is at most 94 and whose rationale
    and bias are not the alternation ones. *)
Definition good_pred (p : pred) : Prop :=
  (p_confidence p <= 94)%Z /\ p_logic p <> "ALTERNATING" /\ p_bias p <> "CHOP_BIAS".



(** ** Decimal periods *)

Lemma utf8_decode_ascii (b : N) (r : list N) :
  (b < 128)%N -> utf8_decode (b :: r) = b :: utf8_decode r.
Proof. intro H. cbn [utf8_decode]. apply N.ltb_lt in H. rewrite H. reflexivity. Qed.

Lemma code_points_cons (a : ascii) (s : string) :
  (N_of_ascii a < 128)%N -> code_points (String a s) = N_of_ascii a :: code_points s.
Proof. intro H. unfold code_points. cbn [list_ascii_of_string map]. apply utf8_decode_ascii, H. Qed.

Lemma uint_codes (d : Decimal.uint) :
  map transform_char (code_points (NilEmpty.string_of_uint d)) = map (Nat.add 48) (uint_digits d).
Proof.
  induction d as [|d IH|d IH|d IH|d IH|d IH|d IH|d IH|d IH|d IH|d IH]; [reflexivity|..];
    cbn [NilEmpty.string_of_uint uint_digits];
    (rewrite code_points_cons; [|vm_compute; reflexivity]);
    cbn [map]; rewrite IH; reflexivity.
Qed.

Lemma uint_digits_lt (d : Decimal.uint) : Forall (fun i => i < 10) (uint_digits d).
Proof. induction d; cbn [uint_digits]; repeat constructor; (lia || assumption). Qed.

Lemma of_uint_acc_fold (d : Decimal.uint) (a : nat) :
  Nat.of_uint_acc d a = fold_left (fun acc i => 10 * acc + i) (uint_digits d) a.
Proof.
  revert a. induction d; intro a; cbn [Nat.of_uint_acc uint_digits fold_left];
    try reflexivity; rewrite IHd, Nat.tail_mul_spec; f_equal; lia.
Qed.

Lemma scan_codes (ds : list nat) (a k : nat) :
  Forall (fun i => i < 10) ds ->
  scan_digits (Z.of_nat a) k false (map (Nat.add 48) ds) =
  Some (Z.of_nat (fold_left (fun acc i => 10 * acc + i) ds a), k + List.length ds, []).
Proof.
  revert a k. induction ds as [|i ds IH]; intros a k H.
  - cbn. rewrite Nat.add_0_r. reflexivity.
  - inversion H as [|? ? Hi Hds]; subst. cbn [map scan_digits].
    assert (Hd : c_isdigit (48 + i) = true)
      by (unfold c_isdigit; apply andb_true_intro; split; apply Nat.leb_le; lia).
    rewrite Hd.
    replace (Z.of_nat a * 10 + Z.of_nat (48 + i - 48))%Z with (Z.of_nat (10 * a + i)) by lia.
    rewrite IH by exact Hds. cbn [fold_left List.length]. rewrite Nat.add_succ_r. reflexivity.
Qed.

Lemma long_from_string_digit (sg : list nat) (i : nat) (r : list nat) :
  (sg = [] \/ sg = [45]) -> i < 10 ->
  long_from_string (sg ++ (48 + i) :: r) =
  match scan_digits 0 0 false ((48 + i) :: r) with
  | Some (v, S _, l3) =>
      match skip_space l3 with
      | [] => Some ((if sg then 1 else -1) * v)%Z
      | _ :: _ => None
      end
  | _ => None
  end.
Proof.
  intros Hsg Hi.
  assert (E : i = 0 \/ i = 1 \/ i = 2 \/ i = 3 \/ i = 4 \/ i = 5 \/ i = 6 \/ i = 7 \/
              i = 8 \/ i = 9) by lia.
  destruct Hsg as [->| ->];
    repeat (destruct E as [->|E]; [reflexivity|]); subst; reflexivity.
Qed.

Lemma to_uint_digits (n : nat) :
  NilZero.string_of_uint (Nat.to_uint n) = NilEmpty.string_of_uint (Nat.to_uint n) /\
  exists i ds, uint_digits (Nat.to_uint n) = i :: ds.
Proof.
  destruct (Nat.to_uint n) eqn:En;
    [pose proof (Unsigned.of_to n) as H; rewrite En in H; subst n; discriminate En|..];
    (split; [reflexivity|cbn [uint_digits]; do 2 eexists; reflexivity]).
Qed.

Lemma parse_str_of_int (sg : list nat) (n : nat) :
  (sg = [] \/ sg = [45]) ->
  long_from_string (sg ++ map transform_char (code_points (str_of_int n))) =
  Some ((if sg then 1 else -1) * Z.of_nat n)%Z.
Proof.
  intro Hsg. unfold str_of_int.
  pose proof (uint_digits_lt (Nat.to_uint n)) as Hlt.
  destruct (to_uint_digits n) as [Hs [i [ds E]]]. rewrite Hs, uint_codes, E.
  rewrite E in Hlt.
  inversion Hlt as [|? ? Hi _]; subst.
  cbn [map]. rewrite long_from_string_digit by assumption.
  change ((48 + i) :: map (Nat.add 48) ds) with (map (Nat.add 48) (i :: ds)).
  change (scan_digits 0%Z) with (scan_digits (Z.of_nat 0)).
  rewrite (scan_codes (i :: ds) 0 0 Hlt). cbn [List.length Nat.add skip_space].
  rewrite <- E, <- of_uint_acc_fold. fold (Nat.of_uint (Nat.to_uint n)).
  rewrite Unsigned.of_to. reflexivity.
Qed.

Lemma int_of_str_of_int (n : nat) : int_of_string (str_of_int n) = Some (Z.of_nat n).
Proof.
  unfold int_of_string. rewrite <- (app_nil_l (map transform_char _)).
  rewrite parse_str_of_int by (left; reflexivity). f_equal. lia.
Qed.

Lemma int_of_str_of_Z (z : Z) : int_of_string (str_of_Z z) = Some z.
Proof.
  unfold str_of_Z. destruct (Z.ltb_spec z 0) as [Hz|Hz].
  - unfold int_of_string. cbn [String.append]. rewrite code_points_cons by (vm_compute; reflexivity).
    cbn [map]. change (transform_char (N_of_ascii "-")) with 45.
    change (45 :: ?l) with (app [45] l).
    rewrite parse_str_of_int by (right; reflexivity). f_equal. lia.
  - rewrite int_of_str_of_int. f_equal. lia.
Qed.




(** ** Lists *)

Lemma in_firstn_l {A} (n : nat) (l : list A) (x : A) : In x (firstn n l) -> In x l.
Proof. intro H. rewrite <- (firstn_skipn n l). apply in_or_app. now left. Qed.

Lemma in_skipn_l {A} (n : nat) (l : list A) (x : A) : In x (skipn n l) -> In x l.
Proof. intro H. rewrite <- (firstn_skipn n l). apply in_or_app. now right. Qed.

Lemma lastn_rev {A} (j : nat) (l : list A) : lastn j l = rev (firstn j (rev l)).
Proof. unfold lastn. rewrite firstn_rev, rev_involutive. reflexivity. Qed.

Lemma run_length_firstn (c : bs) (l : list bs) (j : nat) :
  j <= run_length c l -> firstn j l = repeat c j.
Proof.
  revert j; induction l as [|x l IH]; intros j Hj; simpl in Hj.
  - assert (j = 0) as -> by lia. reflexivity.
  - destruct j as [|j]; [reflexivity|].
    destruct (bs_eqb x c) eqn:E; [|lia].
    destruct x, c; try discriminate; simpl; f_equal; apply IH; lia.
Qed.

(** The last [k] categories of a sequence whose streak is [k] are equal. *)
Lemma count_streak_suffix (l : list bs) (c : bs) (k j : nat) :
  count_streak l = (Some c, k) -> j <= k -> lastn j l = repeat c j.
Proof.
  unfold count_streak. intros H Hj. rewrite lastn_rev.
  destruct (rev l) as [|x before]; [discriminate|].
  injection H as <- <-. destruct j as [|j]; [reflexivity|].
  simpl firstn. rewrite (run_length_firstn x before j) by lia.
  change (x :: repeat x j) with (repeat x (S j)). apply rev_repeat.
Qed.

Lemma count_streak_none (l : list bs) (k : nat) : count_streak l = (None, k) -> k = 0.
Proof. unfold count_streak. destruct (rev l); intro H; inversion H; reflexivity. Qed.

Lemma join_length (l : list bs) : String.length (join l) = List.length l.
Proof. induction l as [|c l IH]; [reflexivity|]. destruct c; simpl; f_equal; exact IH. Qed.

(** ** The pattern table *)

Lemma in_dict_set (m : dict) (k : string) (v : bs) (k' : string) (v' : bs) :
  In (k', v') (dict_set m k v) -> (k', v') = (k, v) \/ In (k', v') m.
Proof.
  induction m as [|[a b] m IH]; simpl.
  - intros [H|[]]. left. symmetry. exact H.
  - destruct (String.eqb k a).
    + intros [H|H]; [left; symmetry; exact H|right; right; exact H].
    + intros [H|H]; [right; left; exact H|].
      destruct (IH H) as [H'|H']; [left; exact H'|right; right; exact H'].
Qed.

Lemma dict_get_in (m : dict) (k : string) (v : bs) :
  dict_get m k = Some v -> In (k, v) m.
Proof.
  induction m as [|[a b] m IH]; simpl; [discriminate|].
  destruct (String.eqb_spec k a) as [->|_].
  - intros [= ->]. left. reflexivity.
  - intro H. right. exact (IH H).
Qed.

Lemma build_pattern_map_entries (len : nat) (k : string) (v : bs) :
  In (k, v) (build_pattern_map len) -> pattern_entry len k v.
Proof.
  unfold build_pattern_map.
  assert (Hgen : forall ps m, incl ps STREAK_BREAK_PATTERNS ->
            (forall k v, In (k, v) m -> pattern_entry len k v) ->
            forall k v,
              In (k, v) (fold_left
                           (fun pattern_map p =>
                              if String.length p =? len
                              then dict_set pattern_map p (flip_first p)
                              else pattern_map) ps m) ->
              pattern_entry len k v).
  { induction ps as [|p ps IH]; intros m Hincl Hm; [exact Hm|].
    simpl. apply IH; [intros x Hx; apply Hincl; right; exact Hx|].
    destruct (Nat.eqb_spec (String.length p) len) as [Hl|_]; [|exact Hm].
    intros k0 v0 H. apply in_dict_set in H as [H|H]; [|exact (Hm _ _ H)].
    injection H as -> ->. split; [apply Hincl; left; reflexivity|].
    split; [exact Hl|reflexivity]. }
  apply Hgen; [intros x Hx; exact Hx|intros k0 v0 []].
Qed.

Lemma catalogue_starts (k : string) :
  In k STREAK_BREAK_PATTERNS ->
  exists c rest, k = bs_str c ++ rest /\ flip_first k = opposite c.
Proof.
  intro Hk.
  assert (Hall : forallb starts_bs STREAK_BREAK_PATTERNS = true) by reflexivity.
  rewrite forallb_forall in Hall. specialize (Hall k Hk).
  destruct k as [|a rest]; [discriminate|]. simpl in Hall.
  destruct (Ascii.eqb_spec a "B"%char) as [->|_].
  - exists Big, rest. split; reflexivity.
  - destruct (Ascii.eqb_spec a "S"%char) as [->|_]; [|discriminate].
    exists Small, rest. split; reflexivity.
Qed.

Lemma find_pattern_cons (natural_order : list bs) (len : nat) (name : string)
    (ms : list (nat * dict * string)) :
  find_pattern natural_order ((len, build_pattern_map len, name) :: ms) =
  match suffix_match len natural_order with
  | Some p => Some (p, name ++ " MATCH: " ++ join (lastn len natural_order)
                      ++ " → " ++ bs_str p)
  | None => find_pattern natural_order ms
  end.
Proof.
  cbn [find_pattern]. unfold suffix_match.
  destruct (len <=? List.length natural_order); [|reflexivity].
  destruct (dict_get _ _); reflexivity.
Qed.

Lemma find_pattern_maps_6 (natural_order : list bs) (v6 : bs) :
  (forall len, 7 <= len <= 10 -> suffix_match len natural_order = None) ->
  suffix_match 6 natural_order = Some v6 ->
  find_pattern natural_order maps =
  Some (v6, "6-digit MATCH: " ++ join (lastn 6 natural_order) ++ " → " ++ bs_str v6).
Proof.
  intros Hno H6. unfold maps. cbn [map]. rewrite !find_pattern_cons.
  rewrite (Hno 10), (Hno 9), (Hno 8), (Hno 7), H6 by lia. reflexivity.
Qed.

(** The maps for 8, 9 and 10 categories are empty: no catalogue pattern is
    longer than 7. *)
Lemma suffix_match_above_7 (len : nat) (natural_order : list bs) :
  8 <= len <= 10 -> suffix_match len natural_order = None.
Proof.
  intro H. assert (E : len = 8 \/ len = 9 \/ len = 10) by lia. unfold suffix_match.
  destruct E as [-> | [-> | ->]]; destruct (_ <=? _); reflexivity.
Qed.

Lemma find_pattern_maps_7 (natural_order : list bs) (v7 : bs) :
  suffix_match 7 natural_order = Some v7 ->
  find_pattern natural_order maps =
  Some (v7, "7-digit MATCH: " ++ join (lastn 7 natural_order) ++ " → " ++ bs_str v7).
Proof.
  intros H7. unfold maps. cbn [map]. rewrite !find_pattern_cons.
  rewrite !suffix_match_above_7, H7 by lia. reflexivity.
Qed.

Lemma find_pattern_maps_5 (natural_order : list bs) (v5 : bs) :
  (forall len, 6 <= len <= 10 -> suffix_match len natural_order = None) ->
  suffix_match 5 natural_order = Some v5 ->
  find_pattern natural_order maps =
  Some (v5, "5-digit MATCH: " ++ join (lastn 5 natural_order) ++ " → " ++ bs_str v5).
Proof.
  intros Hno H5. unfold maps. cbn [map]. rewrite !find_pattern_cons.
  rewrite (Hno 10), (Hno 9), (Hno 8), (Hno 7), (Hno 6), H5 by lia. reflexivity.
Qed.

Lemma suffix_match_entry (len : nat) (natural_order : list bs) (v : bs) :
  suffix_match len natural_order = Some v ->
  pattern_entry len (join (lastn len natural_order)) v.
Proof.
  unfold suffix_match. destruct (len <=? _); [|discriminate].
  intro H. apply build_pattern_map_entries, dict_get_in, H.
Qed.

(** A suffix match needs at least [len] categories. *)
Lemma suffix_match_ne (len : nat) (bsl : list bs) (v : bs) :
  0 < len -> suffix_match len (rev bsl) = Some v -> bsl <> [].
Proof.
  intros Hl H E. subst bsl. unfold suffix_match in H. cbn [rev List.length] in H.
  destruct len; [lia|discriminate].
Qed.

(** A five-long catalogue suffix is never a run of five equal categories,
    so the dragon-risk gate (streak [>= 6]) cannot fire next to it. *)
Lemma streak_below_6_of_match5 (natural_order : list bs) (v5 : bs) :
  suffix_match 5 natural_order = Some v5 -> snd (count_streak natural_order) < 6.
Proof.
  intro H5. destruct (count_streak natural_order) as [[c|] k] eqn:E; simpl.
  - destruct (Nat.lt_ge_cases k 6) as [Hk|Hk]; [exact Hk|exfalso].
    pose proof (count_streak_suffix _ _ _ 5 E ltac:(lia)) as Hs.
    unfold suffix_match in H5. rewrite Hs in H5.
    destruct (5 <=? _); [|discriminate].
    destruct c; vm_compute in H5; discriminate.
  - apply count_streak_none in E. lia.
Qed.

Lemma base_conf_6 (k : string) :
  In k STREAK_BREAK_PATTERNS -> String.length k = 6 ->
  base_conf ("6-digit MATCH: " ++ k ++ " → " ++ bs_str (flip_first k)) = 90%Z.
Proof.
  intros Hk Hl.
  assert (Hall : forallb
            (fun k => negb (String.length k =? 6) ||
               Z.eqb (base_conf ("6-digit MATCH: " ++ k ++ " → " ++ bs_str (flip_first k))) 90)
            STREAK_BREAK_PATTERNS = true) by (vm_compute; reflexivity).
  rewrite forallb_forall in Hall. specialize (Hall k Hk).
  rewrite Hl in Hall. cbn [Nat.eqb negb orb] in Hall. apply Z.eqb_eq, Hall.
Qed.

Lemma base_conf_7 (k : string) :
  In k STREAK_BREAK_PATTERNS -> String.length k = 7 ->
  base_conf ("7-digit MATCH: " ++ k ++ " → " ++ bs_str (flip_first k)) = 94%Z.
Proof.
  intros Hk Hl.
  assert (Hall : forallb
            (fun k => negb (String.length k =? 7) ||
               Z.eqb (base_conf ("7-digit MATCH: " ++ k ++ " → " ++ bs_str (flip_first k))) 94)
            STREAK_BREAK_PATTERNS = true) by (vm_compute; reflexivity).
  rewrite forallb_forall in Hall. specialize (Hall k Hk).
  rewrite Hl in Hall. cbn [Nat.eqb negb orb] in Hall. apply Z.eqb_eq, Hall.
Qed.

Lemma base_conf_5 (k : string) :
  In k STREAK_BREAK_PATTERNS -> String.length k = 5 ->
  base_conf ("5-digit MATCH: " ++ k ++ " → " ++ bs_str (flip_first k)) = 60%Z.
Proof.
  intros Hk Hl.
  assert (Hall : forallb
            (fun k => negb (String.length k =? 5) ||
               Z.eqb (base_conf ("5-digit MATCH: " ++ k ++ " → " ++ bs_str (flip_first k))) 60)
            STREAK_BREAK_PATTERNS = true) by (vm_compute; reflexivity).
  rewrite forallb_forall in Hall. specialize (Hall k Hk).
  rewrite Hl in Hall. cbn [Nat.eqb negb orb] in Hall. apply Z.eqb_eq, Hall.
Qed.

(** ** Number selection *)

Lemma insert_desc_in (x y : nat * nat) (l : list (nat * nat)) :
  In y (insert_desc x l) -> y = x \/ In y l.
Proof.
  induction l as [|z l IH]; simpl.
  - intros [H|[]]. left. symmetry. exact H.
  - destruct (snd z <=? snd x); simpl.
    + intros [H|H]; [left; symmetry; exact H|right; exact H].
    + intros [H|H]; [right; left; exact H|].
      destruct (IH H) as [H'|H']; [left; exact H'|right; right; exact H'].
Qed.

Lemma sort_desc_in (y : nat * nat) (l : list (nat * nat)) :
  In y (sort_desc l) -> In y l.
Proof.
  induction l as [|x l IH]; simpl; [intros []|].
  intro H. apply insert_desc_in in H as [H|H]; [left; symmetry; exact H|right; exact (IH H)].
Qed.

Lemma select_num_in (nums : list nat) (preds : list pred) (c : bs) (k : nat) :
  select_num nums preds c = Some k -> In k (pool_of c).
Proof.
  unfold select_num. destruct (negb _); [discriminate|]. cbv zeta.
  set (w := map _ (pool_of c)).
  match goal with |- context [sort_desc ?wl] =>
    assert (Hsub : forall x, In x wl -> In x w) end.
  { destruct preds as [|p0 ps]; [auto|].
    destruct (is_lose p0); [|auto]. intros x Hx. apply filter_In in Hx. tauto. }
  destruct (sort_desc _) as [|[n s] rest] eqn:Hs.
  - intros [= <-]. destruct c; simpl; auto.
  - intros [= <-].
    assert (Hin : In (n, s) w) by (apply Hsub, sort_desc_in; rewrite Hs; left; reflexivity).
    unfold w in Hin. apply in_map_iff in Hin as [m [Hm Hin]].
    injection Hm as <- _. exact Hin.
Qed.

Lemma select_num_some (nums : list nat) (preds : list pred) (c : bs) :
  forallb (fun n => n <? 10) (lastn 60 nums) = true ->
  exists k, select_num nums preds c = Some k.
Proof.
  intro H. unfold select_num. rewrite H. cbv zeta. cbn [negb].
  destruct (sort_desc _) as [|[n s] rest]; eexists; reflexivity.
Qed.

(** The fallback only raises on an empty sequence. *)
Lemma fallback_some (natural_order : list bs) (streak : option bs * nat) :
  natural_order <> [] -> exists r, fallback natural_order streak = Some r.
Proof.
  intro H. destruct natural_order as [|x l]; [congruence|].
  unfold fallback. destruct streak as [v cnt].
  destruct (_ && _); [eauto|]. destruct (detect_alternating _); [eauto|].
  destruct (match lastn 30 (x :: l) with [] => _ | _ => _ end) as [a b].
  destruct (72 * b <=? 100 * a); [eauto|]. destruct (100 * a <=? 28 * b); eauto.
Qed.

(** On values [0..9] and a non-empty category list the engine never raises. *)
Lemma engine_some (nums : list nat) (bsl : list bs) (preds : list pred) :
  Forall (fun n => n < 10) nums -> bsl <> [] ->
  exists o, dragonx_engine nums bsl preds = Some o.
Proof.
  intros H Hb.
  assert (Hf : forallb (fun n => n <? 10) (lastn 60 nums) = true).
  { apply forallb_forall. intros x Hx. apply Nat.ltb_lt.
    rewrite Forall_forall in H. apply H. exact (in_skipn_l _ _ _ Hx). }
  assert (Hr : rev bsl <> []).
  { intro E. apply (f_equal (@rev bs)) in E. rewrite rev_involutive in E. exact (Hb E). }
  unfold dragonx_engine. destruct (_ <? 10); [eauto|]. cbv zeta.
  destruct (_ && _); [eauto|].
  destruct (match find_pattern _ _ with Some r => Some r | None => _ end)
    as [[prediction used_pattern]|] eqn:E.
  - destruct (select_num_some nums preds prediction Hf) as [k ->]. eauto.
  - exfalso. destruct (find_pattern _ _); [discriminate|].
    destruct (fallback_some (rev bsl) (count_streak (rev bsl)) Hr) as [r' Hr'].
    congruence.
Qed.

Lemma bs_eqb_true (x y : bs) : bs_eqb x y = true <-> x = y.
Proof. destruct x, y; simpl; split; congruence. Qed.

Lemma pbs_eqb_true (x y : pbs) : pbs_eqb x y = true <-> x = y.
Proof.
  destruct x as [a|], y as [b|]; simpl; try (split; congruence).
  rewrite bs_eqb_true. split; congruence.
Qed.

Lemma opt_nat_eqb_true (x y : option nat) : opt_nat_eqb x y = true <-> x = y.
Proof.
  destruct x as [a|], y as [b|]; simpl; try (split; congruence).
  rewrite Nat.eqb_eq. split; congruence.
Qed.

(** ** Grading and the job *)

(** The predictions after one cycle on a well-formed observation: the graded
    list, possibly with one new pending prediction pushed at the front. *)
Lemma job_predictions_shape (st : state) (period : string) (n : nat)
    (more : list (option content)) :
  let preds1 := grade_front period n (get_bs n) (predictions st) in
  let st' := prediction_job (Ok (JList (Some (mkContent (Some period) (Some n)) :: more))) st in
  predictions st' = preds1 \/
  exists np, predictions st' = appendleft 200 np preds1 /\ p_result np = P.
Proof.
  cbv zeta. unfold prediction_job. cbn [issueNumber number predictions].
  destruct (int_of_string period) as [k|]; [|left; reflexivity].
  destruct (existsb _ _); [left; reflexivity|].
  destruct (dragonx_engine _ _ _); [right; eexists; split; reflexivity|left; reflexivity].
Qed.

(** * The claims *)

(** ** C1 *)

(** C1: with fewer than 10 observations the engine returns the statistical
    fallback: High ([Big]) when the mean value is at least 5 (written
    [5 * len <= sum]; an empty history counts as mean 5), else Low; value 5,
    confidence 55, rationale STATISTICAL_FALLBACK, bias NEUTRAL.  The result
    does not depend on the categories or on the past predictions. *)
Theorem cold_start_statistical_fallback (nums : list nat) (bsl : list bs)
    (preds : list pred) :
  List.length nums < 10 ->
  dragonx_engine nums bsl preds =
  Some (mkOut (Pred (if 5 * List.length nums <=? list_sum nums then Big else Small))
              (Some 5) 55 "STATISTICAL_FALLBACK" "NEUTRAL").
Proof.
  intro H. unfold dragonx_engine. apply Nat.ltb_lt in H. rewrite H.
  unfold cold_start_out. destruct nums; reflexivity.
Qed.

Lemma cold_start_statistical_fallback_witness :
  List.length [3; 8; 6] < 10 /\
  dragonx_engine [3; 8; 6] [Small; Big; Big] [lost_small "7"] =
  Some (mkOut (Pred (if 5 * List.length [3; 8; 6] <=? list_sum [3; 8; 6] then Big else Small))
              (Some 5) 55 "STATISTICAL_FALLBACK" "NEUTRAL").
Proof.
  split; [simpl; lia|].
  apply (cold_start_statistical_fallback [3; 8; 6] [Small; Big; Big] [lost_small "7"]).
  simpl; lia.
Defined.

(** ** C2 *)

(** C2 (counterexample): six Big observations and two Lose predictions that
    bet Small: the streak is 6 and there are 2 flip-losses, yet the engine
    answers with the cold-start fallback (Big), not SKIP. *)
Lemma dragon_skip_cold_start_counterexample :
  (6 <= snd (count_streak (rev (repeat Big 6))) /\
   2 <= flip_losses (fst (count_streak (rev (repeat Big 6))))
          [lost_small "12"; lost_small "11"]) /\
  option_map o_bs (dragonx_engine (repeat 7 6) (repeat Big 6)
                     [lost_small "12"; lost_small "11"]) = Some (Pred Big).
Proof. split; [split; vm_compute; lia|vm_compute; reflexivity]. Qed.

(** C2 (amended): once past the cold start (at least 10 observations), a
    natural-order streak of length at least 6 with at least 2 flip-losses
    among the 3 most recent Lose predictions gives the SKIP verdict: no
    value, confidence 0, the dragon rationale and bias DRAGON_RISK. *)
Theorem dragon_risk_skip (nums : list nat) (bsl : list bs) (preds : list pred) :
  10 <= List.length nums ->
  6 <= snd (count_streak (rev bsl)) ->
  2 <= flip_losses (fst (count_streak (rev bsl))) preds ->
  dragonx_engine nums bsl preds =
  Some (mkOut SKIP None 0 "🔥 HIGH-RISK DRAGON DETECTED! SKIP ZONE! 🔥" "DRAGON_RISK").
Proof.
  intros Hn Hs Hf. unfold dragonx_engine.
  replace (List.length nums <? 10) with false by (symmetry; apply Nat.ltb_ge; exact Hn).
  cbv zeta. apply Nat.leb_le in Hs, Hf. rewrite Hs, Hf. reflexivity.
Qed.

Lemma dragon_risk_skip_witness :
  (10 <= List.length (repeat 7 10) /\
   6 <= snd (count_streak (rev (repeat Big 10))) /\
   2 <= flip_losses (fst (count_streak (rev (repeat Big 10))))
          [lost_small "12"; lost_small "11"]) /\
  dragonx_engine (repeat 7 10) (repeat Big 10) [lost_small "12"; lost_small "11"] =
  Some (mkOut SKIP None 0 "🔥 HIGH-RISK DRAGON DETECTED! SKIP ZONE! 🔥" "DRAGON_RISK").
Proof.
  split; [split; [|split]; vm_compute; lia|].
  apply dragon_risk_skip; vm_compute; lia.
Defined.

(** ** C3 *)

(** C3 (counterexample): the natural order ends in SBSSBBS; its 6-suffix
    BSSBBS (entry: Small) and its 5-suffix SSBBS both match, but the 7-long
    entry SBSSBBS wins: the engine predicts Big with base confidence 94. *)
Lemma longest_six_seven_counterexample :
  suffix_match 6 (rev hist7_bs) = Some Small /\
  suffix_match 5 (rev hist7_bs) = Some Big /\
  exists o, dragonx_engine hist7_nums hist7_bs [] = Some o /\
            o_bs o = Pred Big /\ base_conf (o_logic o) = 94%Z.
Proof.
  split; [vm_compute; reflexivity|]. split; [vm_compute; reflexivity|].
  eexists. split; [vm_compute; reflexivity|]. split; vm_compute; reflexivity.
Qed.

(** C3 (amended): with at least 10 observations (values 0..9) whose
    natural order has a matching 6-long and a matching 5-long catalogue
    suffix: when no longer suffix (7..10) matches, the 6-long entry's
    category is predicted, the rationale's base confidence is 90 and the
    returned confidence is 90 after the loss-rate adjustment; when a 7-long
    suffix matches as well, the 7-long entry's category is predicted with
    base confidence 94. *)
Theorem longest_pattern_first (nums : list nat) (bsl : list bs) (preds : list pred)
    (v7 v6 v5 : bs) :
  10 <= List.length nums -> Forall (fun n => n < 10) nums ->
  suffix_match 6 (rev bsl) = Some v6 ->
  suffix_match 5 (rev bsl) = Some v5 ->
  ((forall len, 7 <= len <= 10 -> suffix_match len (rev bsl) = None) ->
   exists o, dragonx_engine nums bsl preds = Some o /\ o_bs o = Pred v6 /\
             base_conf (o_logic o) = 90%Z /\ o_confidence o = confidence_of preds 90) /\
  (suffix_match 7 (rev bsl) = Some v7 ->
   exists o, dragonx_engine nums bsl preds = Some o /\ o_bs o = Pred v7 /\
             base_conf (o_logic o) = 94%Z /\ o_confidence o = confidence_of preds 94).
Proof.
  intros Hn Hnums H6 H5.
  destruct (engine_some nums bsl preds Hnums (suffix_match_ne 5 bsl v5 ltac:(lia) H5))
    as [o Ho].
  assert (Heng : dragonx_engine nums bsl preds =
            match
              match find_pattern (rev bsl) maps with
              | Some r => Some r
              | None => fallback (rev bsl) (count_streak (rev bsl))
              end
            with
            | None => None
            | Some (prediction, used_pattern) =>
                match select_num nums preds prediction with
                | None => None
                | Some final_num =>
                    Some (mkOut (Pred prediction) (Some final_num)
                            (confidence_of preds (base_conf used_pattern)) used_pattern
                            (bias_of used_pattern))
                end
            end).
  { unfold dragonx_engine.
    replace (List.length nums <? 10) with false by (symmetry; apply Nat.ltb_ge; exact Hn).
    pose proof (streak_below_6_of_match5 _ _ H5) as Hs.
    replace (6 <=? snd (count_streak (rev bsl))) with false
      by (symmetry; apply Nat.leb_gt; exact Hs).
    reflexivity. }
  split.
  - intro Hno. exists o. split; [exact Ho|].
    rewrite Heng, (find_pattern_maps_6 _ v6 Hno H6) in Ho. cbv beta iota in Ho.
    destruct (select_num _ _ _); [|discriminate]. injection Ho as <-.
    cbn [o_bs o_logic o_confidence].
    destruct (suffix_match_entry _ _ _ H6) as [Hk [Hl Hv]].
    pose proof (base_conf_6 _ Hk Hl) as Hb. rewrite <- Hv in Hb.
    split; [reflexivity|]. split; [exact Hb|]. f_equal. exact Hb.
  - intro H7. exists o. split; [exact Ho|].
    rewrite Heng, (find_pattern_maps_7 _ v7 H7) in Ho. cbv beta iota in Ho.
    destruct (select_num _ _ _); [|discriminate]. injection Ho as <-.
    cbn [o_bs o_logic o_confidence].
    destruct (suffix_match_entry _ _ _ H7) as [Hk [Hl Hv]].
    pose proof (base_conf_7 _ Hk Hl) as Hb. rewrite <- Hv in Hb.
    split; [reflexivity|]. split; [exact Hb|]. f_equal. exact Hb.
Qed.

Lemma longest_pattern_first_witness :
  (10 <= List.length (7 :: hist7_nums) /\ Forall (fun n => n < 10) (7 :: hist7_nums) /\
   suffix_match 6 (rev (Big :: hist7_bs)) = Some Big /\
   suffix_match 5 (rev (Big :: hist7_bs)) = Some Big /\
   (forall len, 7 <= len <= 10 -> suffix_match len (rev (Big :: hist7_bs)) = None) /\
   exists o, dragonx_engine (7 :: hist7_nums) (Big :: hist7_bs) [] = Some o /\
             o_bs o = Pred Big /\
             base_conf (o_logic o) = 90%Z /\ o_confidence o = confidence_of [] 90) /\
  (10 <= List.length hist7_nums /\ Forall (fun n => n < 10) hist7_nums /\
   suffix_match 6 (rev hist7_bs) = Some Small /\
   suffix_match 5 (rev hist7_bs) = Some Big /\
   suffix_match 7 (rev hist7_bs) = Some Big /\
   exists o, dragonx_engine hist7_nums hist7_bs [] = Some o /\ o_bs o = Pred Big /\
             base_conf (o_logic o) = 94%Z /\ o_confidence o = confidence_of [] 94).
Proof.
  assert (Hno : forall len, 7 <= len <= 10 -> suffix_match len (rev (Big :: hist7_bs)) = None).
  { intros len Hlen.
    destruct (Nat.eq_dec len 7) as [->|]; [vm_compute; reflexivity|].
    destruct (Nat.eq_dec len 8) as [->|]; [vm_compute; reflexivity|].
    destruct (Nat.eq_dec len 9) as [->|]; [vm_compute; reflexivity|].
    destruct (Nat.eq_dec len 10) as [->|]; [vm_compute; reflexivity|].
    lia. }
  assert (Hn1 : 10 <= List.length (7 :: hist7_nums)) by (vm_compute; lia).
  assert (Hnums1 : Forall (fun n => n < 10) (7 :: hist7_nums)) by (repeat constructor; lia).
  assert (H61 : suffix_match 6 (rev (Big :: hist7_bs)) = Some Big) by (vm_compute; reflexivity).
  assert (H51 : suffix_match 5 (rev (Big :: hist7_bs)) = Some Big) by (vm_compute; reflexivity).
  assert (Hn2 : 10 <= List.length hist7_nums) by (vm_compute; lia).
  assert (Hnums2 : Forall (fun n => n < 10) hist7_nums) by (repeat constructor; lia).
  assert (H62 : suffix_match 6 (rev hist7_bs) = Some Small) by (vm_compute; reflexivity).
  assert (H52 : suffix_match 5 (rev hist7_bs) = Some Big) by (vm_compute; reflexivity).
  assert (H72 : suffix_match 7 (rev hist7_bs) = Some Big) by (vm_compute; reflexivity).
  split.
  - do 5 (split; [assumption|]).
    exact (proj1 (longest_pattern_first (7 :: hist7_nums) (Big :: hist7_bs) [] Big Big Big
                    Hn1 Hnums1 H61 H51) Hno).
  - do 5 (split; [assumption|]).
    exact (proj2 (longest_pattern_first hist7_nums hist7_bs [] Big Small Big
                    Hn2 Hnums2 H62 H52) H72).
Defined.

(** ** C4 *)

(** C4 (counterexample): ten Big observations and two Lose predictions that
    bet Small: the SKIP verdict carries confidence 0, outside [55, 98]. *)
Lemma confidence_skip_counterexample :
  exists o, dragonx_engine (repeat 7 10) (repeat Big 10)
              [lost_small "12"; lost_small "11"] = Some o /\
            ~ (55 <= o_confidence o <= 98)%Z.
Proof. eexists. split; [vm_compute; reflexivity|cbn; lia]. Qed.

(** C4 (amended): every output of the engine is either the SKIP verdict,
    with confidence 0, or a High/Low prediction whose confidence lies in
    [55, 98], loss-rate adjustment included. *)
Theorem confidence_in_range (nums : list nat) (bsl : list bs) (preds : list pred)
    (o : out) :
  dragonx_engine nums bsl preds = Some o ->
  (o_bs o = SKIP /\ o_confidence o = 0%Z) \/
  (o_bs o <> SKIP /\ (55 <= o_confidence o <= 98)%Z).
Proof.
  unfold dragonx_engine. destruct (_ <? 10).
  { intros [= <-]. right. cbn. split; [discriminate|lia]. }
  cbv zeta. destruct (_ && _).
  { intros [= <-]. left. split; reflexivity. }
  destruct (match find_pattern _ _ with Some r => Some r | None => _ end)
    as [[prediction used_pattern]|]; [|discriminate].
  destruct (select_num _ _ _); [|discriminate]. intros [= <-].
  right. cbn [o_bs o_confidence]. split; [discriminate|].
  unfold confidence_of. destruct (loss_penalty preds); lia.
Qed.

Lemma confidence_in_range_witness :
  exists o, dragonx_engine hist7_nums hist7_bs [] = Some o /\
    ((o_bs o = SKIP /\ o_confidence o = 0%Z) \/
     (o_bs o <> SKIP /\ (55 <= o_confidence o <= 98)%Z)).
Proof.
  destruct (engine_some hist7_nums hist7_bs []) as [o Ho]; [repeat constructor; lia|intro E; vm_compute in E; discriminate E|].
  exists o. split; [exact Ho|]. exact (confidence_in_range _ _ _ o Ho).
Defined.

(** ** C5 *)

(** C5 (counterexample): one observation of value 0: the cold-start
    fallback predicts Low ([Small]) and suggests 5, outside {0..4}. *)
Lemma pool_cold_start_counterexample :
  exists o, dragonx_engine [0] [Small] [] = Some o /\ o_bs o = Pred Small /\
            o_num o = Some 5 /\ ~ In 5 (seq 0 5).
Proof.
  eexists. split; [reflexivity|]. split; [reflexivity|]. split; [reflexivity|].
  simpl. intuition discriminate.
Qed.

(** C5 (amended): the cold start (fewer than 10 observations) always
    suggests 5, whatever category it predicts; past the cold start the
    suggestion of a High prediction is in {5..9}, of a Low prediction in
    {0..4}, and the SKIP verdict suggests no value. *)
Theorem suggested_value_in_pool (nums : list nat) (bsl : list bs) (preds : list pred)
    (o : out) :
  dragonx_engine nums bsl preds = Some o ->
  (List.length nums < 10 -> o_num o = Some 5) /\
  (10 <= List.length nums ->
   match o_bs o with
   | Pred Big => exists k, o_num o = Some k /\ 5 <= k <= 9
   | Pred Small => exists k, o_num o = Some k /\ k <= 4
   | SKIP => o_num o = None
   end).
Proof.
  unfold dragonx_engine. destruct (List.length nums <? 10) eqn:E.
  { intros [= <-]. apply Nat.ltb_lt in E. split; [reflexivity|lia]. }
  apply Nat.ltb_ge in E. cbv zeta. destruct (_ && _).
  { intros [= <-]. split; [lia|reflexivity]. }
  destruct (match find_pattern _ _ with Some r => Some r | None => _ end)
    as [[prediction used_pattern]|]; [|discriminate].
  destruct (select_num _ _ _) as [k|] eqn:Hs; [|discriminate]. intros [= <-].
  split; [lia|intros _]. cbn [o_bs o_num].
  apply select_num_in in Hs. unfold pool_of in Hs.
  destruct prediction; cbn [bs_eqb] in Hs; apply in_seq in Hs;
    exists k; split; [reflexivity|lia|reflexivity|lia].
Qed.

Lemma suggested_value_in_pool_witness :
  exists o, dragonx_engine hist7_nums hist7_bs [] = Some o /\
    (List.length hist7_nums < 10 -> o_num o = Some 5) /\
    (10 <= List.length hist7_nums ->
     match o_bs o with
     | Pred Big => exists k, o_num o = Some k /\ 5 <= k <= 9
     | Pred Small => exists k, o_num o = Some k /\ k <= 4
     | SKIP => o_num o = None
     end).
Proof.
  destruct (engine_some hist7_nums hist7_bs []) as [o Ho]; [repeat constructor; lia|intro E; vm_compute in E; discriminate E|].
  exists o. split; [exact Ho|]. exact (suggested_value_in_pool _ _ _ o Ho).
Defined.

(** ** C6 *)

(** C6: when the newly fetched observation [(period, n)] has the period of
    the front stored prediction [lp], that prediction is graded Jackpot when
    category and value both match, Win when only the category matches, Lose
    otherwise.  It stays at the front, or right behind the new prediction
    pushed by the same cycle. *)
Theorem grading_outcome (st : state) (lp : pred) (rest : list pred) (period : string)
    (n : nat) (more : list (option content)) :
  predictions st = lp :: rest -> p_period lp = period ->
  let st' := prediction_job (Ok (JList (Some (mkContent (Some period) (Some n)) :: more))) st in
  let graded r := nth_error (predictions st') 0 = Some (set_result lp r) \/
                  nth_error (predictions st') 1 = Some (set_result lp r) in
  (p_bs lp = Pred (get_bs n) -> p_num lp = Some n -> graded Jackpot) /\
  (p_bs lp = Pred (get_bs n) -> p_num lp <> Some n -> graded Win) /\
  (p_bs lp <> Pred (get_bs n) -> graded Lose).
Proof.
  intros Hst Hp st' graded.
  assert (Hg : forall r, grade lp n (get_bs n) = r -> graded r).
  { intros r Hr. unfold graded, st'.
    destruct (job_predictions_shape st period n more) as [E|[np [E _]]];
      rewrite E; unfold grade_front; rewrite Hst, Hp, String.eqb_refl, Hr;
      [left|right]; reflexivity. }
  unfold grade in Hg. split; [|split].
  - intros Hb Hn. apply Hg. rewrite Hb, Hn.
    rewrite (proj2 (pbs_eqb_true _ _) eq_refl), (proj2 (opt_nat_eqb_true _ _) eq_refl).
    reflexivity.
  - intros Hb Hn. apply Hg. rewrite Hb.
    rewrite (proj2 (pbs_eqb_true _ _) eq_refl).
    destruct (opt_nat_eqb (p_num lp) (Some n)) eqn:E; [|reflexivity].
    apply opt_nat_eqb_true in E. contradiction.
  - intros Hb. apply Hg.
    destruct (pbs_eqb (p_bs lp) (Pred (get_bs n))) eqn:E; [|reflexivity].
    apply pbs_eqb_true in E. contradiction.
Qed.

Lemma grading_outcome_witness :
  let st := mkState [] [c6_pred] in
  let st' := prediction_job (Ok (JList [Some (mkContent (Some "101") (Some 7))])) st in
  predictions st = c6_pred :: [] /\ p_period c6_pred = "101" /\
  (nth_error (predictions st') 0 = Some (set_result c6_pred Jackpot) \/
   nth_error (predictions st') 1 = Some (set_result c6_pred Jackpot)).
Proof.
  cbv zeta. split; [reflexivity|]. split; [reflexivity|].
  apply (grading_outcome (mkState [] [c6_pred]) c6_pred [] "101" 7 []);
    reflexivity.
Defined.

(** ** C8 *)

(** Request errors, bad statuses, undecodable or non-list bodies, an empty
    list and an item without the expected keys leave both logs untouched. *)
Lemma feed_failure_keeps_state (st : state) (r : response) :
  (r = NetworkError \/ r = RequestTimeout \/ (exists status, r = HttpError status) \/
   r = Ok NotJson \/ r = Ok NotList \/ r = Ok (JList []) \/
   (exists more, r = Ok (JList (None :: more))) \/
   (exists c more, (issueNumber c = None \/ number c = None) /\
                   r = Ok (JList (Some c :: more)))) ->
  prediction_job r st = st.
Proof.
  intros [->|[->|[[s ->]|[->|[->|[->|[[more ->]|[c [more [Hc ->]]]]]]]]]];
    try reflexivity.
  cbn. destruct Hc as [-> | ->]; [reflexivity|destruct (issueNumber c); reflexivity].
Qed.

(** C8 (code_bug): for every state, a feed answer whose first item has an
    [issueNumber] that [int()] rejects and a [number] makes the cycle fail in
    [int(period)] only after the observation has been pushed onto the
    history (and the newest prediction graded against it); no prediction is
    added.  Whenever the history holds fewer than 1000 observations, the
    aborted cycle leaves it one entry longer, so the history is changed. *)
Theorem malformed_period_mutates_history (st : state) (period : string) (n : nat)
    (more : list (option content)) :
  int_of_string period = None ->
  let st' := prediction_job (Ok (JList (Some (mkContent (Some period) (Some n)) :: more))) st in
  st' = mkState (appendleft 1000 (mkTrend period n (get_bs n)) (trends st))
                (grade_front period n (get_bs n) (predictions st)) /\
  (List.length (trends st) < 1000 -> trends st' <> trends st).
Proof.
  intros H st'. subst st'. unfold prediction_job. cbn [issueNumber number]. rewrite H.
  split; [reflexivity|]. intros Hl E. cbn [trends] in E.
  apply (f_equal (@List.length trend)) in E. unfold appendleft in E.
  rewrite length_firstn in E. cbn [List.length] in E. lia.
Qed.

Lemma malformed_period_mutates_history_witness :
  int_of_string "N/A" = None /\
  prediction_job (Ok (JList [Some (mkContent (Some "N/A") (Some 3))])) empty_state =
  mkState (appendleft 1000 (mkTrend "N/A" 3 (get_bs 3)) []) (grade_front "N/A" 3 (get_bs 3) []) /\
  trends (prediction_job (Ok (JList [Some (mkContent (Some "N/A") (Some 3))])) empty_state)
  <> trends empty_state.
Proof.
  assert (H : int_of_string "N/A" = None) by (vm_compute; reflexivity).
  split; [exact H|].
  destruct (malformed_period_mutates_history empty_state "N/A" 3 [] H) as [E Hne].
  split; [exact E|]. apply Hne. cbn. lia.
Defined.

(** ** C9 *)

(** C9: every entry of every length's pattern map maps its key to the
    opposite of the key's first category. *)
Theorem pattern_table_flip_first :
  Forall (fun '(len, pattern_map, name) =>
            Forall (fun '(key, v) => exists c rest, key = bs_str c ++ rest /\ v = opposite c)
              pattern_map) maps.
Proof.
  unfold maps. apply Forall_forall. intros [[len pm] name] Hin.
  apply in_map_iff in Hin as [l [Heq _]]. injection Heq as <- <- _.
  apply Forall_forall. intros [k v] Hkv.
  apply build_pattern_map_entries in Hkv as [Hk [_ ->]].
  exact (catalogue_starts k Hk).
Qed.

(** ** C10 *)

(** C10: with at least 10 observations (values 0..9), when the longest
    matching catalogue suffix has length 5, the 5-long entry's category is
    predicted, the base confidence is the default 60 (no "5-digit" rung on
    the scale), and without the loss-rate penalty the confidence is 60. *)
Theorem five_match_default_confidence (nums : list nat) (bsl : list bs)
    (preds : list pred) (v5 : bs) :
  10 <= List.length nums -> Forall (fun n => n < 10) nums ->
  suffix_match 5 (rev bsl) = Some v5 ->
  (forall len, 6 <= len <= 10 -> suffix_match len (rev bsl) = None) ->
  exists o, dragonx_engine nums bsl preds = Some o /\ o_bs o = Pred v5 /\
            base_conf (o_logic o) = 60%Z /\ o_confidence o = confidence_of preds 60 /\
            (loss_penalty preds = false -> o_confidence o = 60%Z).
Proof.
  intros Hn Hnums H5 Hno.
  destruct (engine_some nums bsl preds Hnums (suffix_match_ne 5 bsl v5 ltac:(lia) H5))
    as [o Ho].
  exists o. split; [exact Ho|].
  revert Ho. unfold dragonx_engine.
  replace (List.length nums <? 10) with false by (symmetry; apply Nat.ltb_ge; exact Hn).
  cbv zeta.
  pose proof (streak_below_6_of_match5 _ _ H5) as Hs.
  replace (6 <=? snd (count_streak (rev bsl))) with false
    by (symmetry; apply Nat.leb_gt; exact Hs).
  cbn [andb]. rewrite (find_pattern_maps_5 _ v5 Hno H5).
  destruct (select_num _ _ _); [|discriminate]. intros [= <-].
  cbn [o_bs o_logic o_confidence].
  destruct (suffix_match_entry _ _ _ H5) as [Hk [Hl Hv]].
  pose proof (base_conf_5 _ Hk Hl) as Hb. rewrite <- Hv in Hb.
  split; [reflexivity|]. split; [exact Hb|].
  assert (Hc : confidence_of preds
                 (base_conf ("5-digit MATCH: " ++ join (lastn 5 (rev bsl)) ++ " → " ++ bs_str v5))
               = confidence_of preds 60) by (f_equal; exact Hb).
  split; [exact Hc|]. intro Hp. transitivity (confidence_of preds 60); [exact Hc|].
  unfold confidence_of. rewrite Hp. reflexivity.
Qed.

Lemma five_match_default_confidence_witness :
  (10 <= List.length hist5_nums /\ Forall (fun n => n < 10) hist5_nums /\
   suffix_match 5 (rev hist5_bs) = Some Small /\
   (forall len, 6 <= len <= 10 -> suffix_match len (rev hist5_bs) = None)) /\
  exists o, dragonx_engine hist5_nums hist5_bs [] = Some o /\ o_bs o = Pred Small /\
            base_conf (o_logic o) = 60%Z /\ o_confidence o = confidence_of [] 60 /\
            (loss_penalty [] = false -> o_confidence o = 60%Z).
Proof.
  assert (Hno : forall len, 6 <= len <= 10 -> suffix_match len (rev hist5_bs) = None).
  { intros len Hlen.
    do 11 (destruct len as [|len]; [first [lia|vm_compute; reflexivity]|]). lia. }
  assert (Hnums : Forall (fun n => n < 10) hist5_nums) by (repeat constructor; lia).
  split; [split; [vm_compute; lia|split; [exact Hnums|split; [vm_compute; reflexivity|exact Hno]]]|].
  apply (five_match_default_confidence hist5_nums hist5_bs [] Small);
    [vm_compute; lia|exact Hnums|vm_compute; reflexivity|exact Hno].
Defined.

(** ** C7 *)

Lemma NoDup_firstn_l {A} (k : nat) (l : list A) : NoDup l -> NoDup (firstn k l).
Proof. intro H. rewrite <- (firstn_skipn k l) in H. exact (NoDup_app_remove_r _ _ H). Qed.












(** * Further properties of the code *)

(** ** Suffixes *)

Lemma lastn_length {A} (k : nat) (l : list A) :
  List.length (lastn k l) = Nat.min k (List.length l).
Proof. unfold lastn. rewrite length_skipn. lia. Qed.

Lemma lastn_lastn {A} (j k : nat) (l : list A) :
  j <= k -> lastn j (lastn k l) = lastn j l.
Proof.
  intro H. unfold lastn. rewrite length_skipn, skipn_skipn. f_equal. lia.
Qed.

Lemma in_all_upto (k : nat) (l : list bs) : List.length l <= k -> In l (all_upto k).
Proof.
  revert l. induction k as [|k IH]; intros l Hl.
  - destruct l; [left; reflexivity|simpl in Hl; lia].
  - destruct l as [|c l]; [left; reflexivity|right].
    simpl in Hl. apply in_flat_map. exists l. split; [apply IH; lia|].
    destruct c; simpl; auto.
Qed.

Lemma check_all_upto (k : nat) (f : list bs -> bool) (l : list bs) :
  forallb f (all_upto k) = true -> List.length l <= k -> f l = true.
Proof.
  intros H Hl. rewrite forallb_forall in H. apply H, in_all_upto, Hl.
Qed.

(** ** The pattern lookup only sees the last seven categories *)

Lemma build_pattern_map_long (len : nat) :
  8 <= len <= 10 -> build_pattern_map len = [].
Proof.
  intro H. assert (E : len = 8 \/ len = 9 \/ len = 10) by lia.
  destruct E as [E|[E|E]]; subst len; vm_compute; reflexivity.
Qed.

Lemma maps_eq :
  maps = [(10, [], "10-digit"); (9, [], "9-digit"); (8, [], "8-digit");
          (7, build_pattern_map 7, "7-digit"); (6, build_pattern_map 6, "6-digit");
          (5, build_pattern_map 5, "5-digit")].
Proof.
  unfold maps. cbn [map].
  rewrite !build_pattern_map_long by lia. reflexivity.
Qed.

Lemma find_pattern_empty (natural_order : list bs) (len : nat) (name : string)
    (ms : list (nat * dict * string)) :
  find_pattern natural_order ((len, [], name) :: ms) = find_pattern natural_order ms.
Proof. cbn [find_pattern dict_get]. destruct (len <=? _); reflexivity. Qed.

Lemma suffix_match_lastn7 (len : nat) (natural_order : list bs) :
  len <= 7 -> suffix_match len (lastn 7 natural_order) = suffix_match len natural_order.
Proof.
  intro H. unfold suffix_match. rewrite lastn_length, lastn_lastn by exact H.
  replace (len <=? Nat.min 7 (List.length natural_order))
    with (len <=? List.length natural_order); [reflexivity|].
  destruct (Nat.leb_spec len (List.length natural_order));
    destruct (Nat.leb_spec len (Nat.min 7 (List.length natural_order))); lia.
Qed.

Lemma find_pattern_lastn7 (natural_order : list bs) :
  find_pattern natural_order maps = find_pattern (lastn 7 natural_order) maps.
Proof.
  rewrite maps_eq, !find_pattern_empty, !find_pattern_cons.
  rewrite !suffix_match_lastn7 by lia.
  rewrite !(lastn_lastn _ 7) by lia. reflexivity.
Qed.

(** A pattern hit is a 7-, 6- or 5-digit match, with its confidence at most
    94 and the pattern bias. *)
Lemma find_pattern_facts (natural_order : list bs) (prediction : bs) (s : string) :
  find_pattern natural_order maps = Some (prediction, s) ->
  (base_conf s <= 94)%Z /\ bias_of s = "PATTERN_BIAS" /\ s <> "ALTERNATING".
Proof.
  rewrite find_pattern_lastn7. intro H.
  assert (Hc : forallb
    (fun l => match find_pattern l maps with
              | Some (_, s) => Z.leb (base_conf s) 94 && String.eqb (bias_of s) "PATTERN_BIAS"
                               && negb (String.eqb s "ALTERNATING")
              | None => true
              end) (all_upto 7) = true) by (vm_compute; reflexivity).
  pose proof (check_all_upto 7 _ (lastn 7 natural_order) Hc) as Hl.
  rewrite lastn_length in Hl. specialize (Hl ltac:(lia)). rewrite H in Hl.
  apply andb_prop in Hl as [Hl H3]. apply andb_prop in Hl as [H1 H2].
  split; [apply Z.leb_le, H1|]. split; [apply String.eqb_eq, H2|].
  intro E. rewrite E in H3. discriminate H3.
Qed.

(** ** The fallback rationales *)

Lemma round_pct_le (a b : nat) : 0 < b -> a <= b -> round_pct a b <= 100.
Proof.
  intros Hb Hab. unfold round_pct.
  pose proof (Nat.div_mod_eq (100 * a) b) as Hdm.
  pose proof (Nat.mod_upper_bound (100 * a) b ltac:(lia)) as Hr.
  set (q := 100 * a / b) in *. set (r := (100 * a) mod b) in *.
  assert (Hq : q <= 100) by nia.
  destruct (2 * r <? b) eqn:E1; [exact Hq|].
  apply Nat.ltb_ge in E1. assert (q < 100) by nia.
  destruct (b <? 2 * r); [lia|]. destruct (Nat.even q); lia.
Qed.

Lemma dominance_strings (k : nat) :
  k <= 100 ->
  base_conf ("BIG DOMINANCE (" ++ str_of_int k ++ "%)") = 85%Z /\
  bias_of ("BIG DOMINANCE (" ++ str_of_int k ++ "%)") = "MOMENTUM_BIAS" /\
  base_conf ("SMALL DOMINANCE (" ++ str_of_int k ++ "%)") = 85%Z /\
  bias_of ("SMALL DOMINANCE (" ++ str_of_int k ++ "%)") = "MOMENTUM_BIAS".
Proof.
  intro Hk.
  assert (Hc : forallb (fun k =>
      Z.eqb (base_conf ("BIG DOMINANCE (" ++ str_of_int k ++ "%)")) 85 &&
      String.eqb (bias_of ("BIG DOMINANCE (" ++ str_of_int k ++ "%)")) "MOMENTUM_BIAS" &&
      Z.eqb (base_conf ("SMALL DOMINANCE (" ++ str_of_int k ++ "%)")) 85 &&
      String.eqb (bias_of ("SMALL DOMINANCE (" ++ str_of_int k ++ "%)")) "MOMENTUM_BIAS")
    (seq 0 101) = true) by (vm_compute; reflexivity).
  rewrite forallb_forall in Hc. specialize (Hc k ltac:(apply in_seq; lia)).
  apply andb_prop in Hc as [Hc H4]. apply andb_prop in Hc as [Hc H3].
  apply andb_prop in Hc as [H1 H2].
  apply Z.eqb_eq in H1, H3. apply String.eqb_eq in H2, H4. auto.
Qed.

Lemma count_bs_le (c : bs) (l : list bs) : count_bs c l <= List.length l.
Proof. apply filter_length_le. Qed.

(** Every rationale of the fallback has a base confidence of at most 94; it
    is ALTERNATING (the only one with the chop bias) only when the last ten
    categories alternate. *)
Lemma fallback_facts (natural_order : list bs) (streak : option bs * nat)
    (pr : bs) (s : string) :
  fallback natural_order streak = Some (pr, s) ->
  (base_conf s <= 94)%Z /\
  (detect_alternating (lastn 10 natural_order) = None ->
   s <> "ALTERNATING" /\ bias_of s <> "CHOP_BIAS").
Proof.
  unfold fallback. destruct streak as [value cnt].
  destruct ((4 <=? cnt) && (cnt <? 6)) eqn:E.
  - apply andb_prop in E as [E1 E2]. apply Nat.leb_le in E1. apply Nat.ltb_lt in E2.
    assert (Hc : cnt = 4 \/ cnt = 5) by lia.
    intros [= <- <-].
    destruct Hc as [Hc|Hc]; subst cnt;
      (split; [vm_compute; discriminate|intros _; split; vm_compute; discriminate]).
  - destruct (detect_alternating (lastn 10 natural_order)) as [alt|] eqn:Ed.
    + intros [= <- <-]. split; [vm_compute; discriminate|intro H; discriminate H].
    + destruct (lastn 30 natural_order) as [|x w] eqn:Ew.
      * cbn [Nat.leb Nat.mul Nat.add].
        destruct natural_order; [discriminate|].
        intros [= <- <-].
        split; [vm_compute; discriminate|intros _; split; vm_compute; discriminate].
      * set (a := count_bs Big (x :: w)). set (b := List.length (x :: w)).
        assert (Hab : a <= b) by apply count_bs_le.
        assert (Hb : 0 < b) by (unfold b; simpl; lia).
        destruct (dominance_strings (round_pct a b) (round_pct_le a b Hb Hab))
          as [H1 [H2 _]].
        destruct (dominance_strings (round_pct (b - a) b) (round_pct_le (b - a) b Hb ltac:(lia)))
          as [_ [_ [H3 H4]]].
        destruct (72 * b <=? 100 * a); [|destruct (100 * a <=? 28 * b)].
        -- intro H. assert (Hs : "BIG DOMINANCE (" ++ str_of_int (round_pct a b) ++ "%)" = s)
             by congruence.
           rewrite <- Hs, H1, H2. split; [lia|intros _; split; discriminate].
        -- intro H.
           assert (Hs : "SMALL DOMINANCE (" ++ str_of_int (round_pct (b - a) b) ++ "%)" = s)
             by congruence.
           rewrite <- Hs, H3, H4. split; [lia|intros _; split; discriminate].
        -- destruct natural_order; [discriminate|]. intros [= <- <-].
           split; [vm_compute; discriminate|intros _; split; vm_compute; discriminate].
Qed.

Lemma confidence_of_le (preds : list pred) (base : Z) :
  (base <= 94)%Z -> (confidence_of preds base <= 94)%Z.
Proof. intro H. unfold confidence_of. destruct (loss_penalty preds); lia. Qed.

(** The maps for 8, 9 and 10 digits are empty, so no engine answer has a
    confidence above 94. *)
Lemma engine_confidence_bound (nums : list nat) (bsl : list bs) (preds : list pred)
    (o : out) :
  dragonx_engine nums bsl preds = Some o -> (o_confidence o <= 94)%Z.
Proof.
  unfold dragonx_engine. destruct (_ <? 10).
  { intros [= <-]. cbn. lia. }
  cbv zeta. destruct (_ && _).
  { intros [= <-]. cbn. lia. }
  destruct (find_pattern (rev bsl) maps) as [[pr s]|] eqn:Ef.
  - destruct (find_pattern_facts _ _ _ Ef) as [Hb _]. cbv beta iota.
    destruct (select_num _ _ _); [|discriminate].
    intros [= <-]. cbn [o_confidence]. apply confidence_of_le, Hb.
  - destruct (fallback (rev bsl) (count_streak (rev bsl))) as [[pr s]|] eqn:Efb;
      [|discriminate].
    destruct (fallback_facts _ _ _ _ Efb) as [Hb _]. cbv beta iota.
    destruct (select_num _ _ _); [|discriminate].
    intros [= <-]. cbn [o_confidence]. apply confidence_of_le, Hb.
Qed.

(** ** Alternation and runs at the end of the history *)

Lemma adjacent_equal_skipn (k : nat) (l : list bs) :
  adjacent_equal l = false -> adjacent_equal (skipn k l) = false.
Proof.
  revert l. induction k as [|k IH]; intros l H; [exact H|].
  destruct l as [|x l]; [reflexivity|]. cbn [skipn]. apply IH.
  destruct l as [|y l]; [reflexivity|]. cbn [adjacent_equal] in H.
  apply orb_false_iff in H. apply H.
Qed.

(** Ten alternating categories always end in a catalogue pattern. *)
Lemma alternating_matches (natural_order : list bs) :
  7 <= List.length natural_order ->
  detect_alternating (lastn 10 natural_order) <> None ->
  find_pattern natural_order maps <> None.
Proof.
  intros Hl Hd. rewrite find_pattern_lastn7.
  assert (Ha : adjacent_equal (lastn 7 natural_order) = false).
  { rewrite <- (lastn_lastn 7 10) by lia. unfold lastn at 1.
    apply adjacent_equal_skipn. unfold detect_alternating in Hd.
    destruct (_ <? 3); [contradiction|]. destruct (adjacent_equal _); [contradiction|].
    reflexivity. }
  assert (Hc : forallb (fun l => negb (List.length l =? 7) || adjacent_equal l ||
                                 match find_pattern l maps with Some _ => true | None => false end)
                 (all_upto 7) = true) by (vm_compute; reflexivity).
  pose proof (check_all_upto 7 _ (lastn 7 natural_order) Hc) as H.
  assert (Hlen : List.length (lastn 7 natural_order) = 7) by (rewrite lastn_length; lia).
  specialize (H ltac:(lia)). cbv beta in H. rewrite Hlen, Ha in H. cbn [Nat.eqb negb orb] in H.
  destruct (find_pattern _ maps); [discriminate|discriminate H].
Qed.

Lemma run_length_firstn_min (c : bs) (l : list bs) (j : nat) :
  run_length c (firstn j l) = Nat.min j (run_length c l).
Proof.
  revert j. induction l as [|x l IH]; intro j.
  - rewrite firstn_nil. cbn. lia.
  - destruct j as [|j]; [reflexivity|]. cbn [firstn run_length].
    destruct (bs_eqb x c); [rewrite IH; lia|lia].
Qed.

Lemma count_streak_lastn (k : nat) (l : list bs) :
  1 <= k ->
  count_streak (lastn k l) = (fst (count_streak l), Nat.min k (snd (count_streak l))).
Proof.
  intro Hk. unfold count_streak. rewrite lastn_rev, rev_involutive.
  destruct (rev l) as [|x before]; [rewrite firstn_nil; cbn; f_equal; lia|].
  destruct k as [|k]; [lia|]. cbn [firstn fst snd].
  rewrite run_length_firstn_min. f_equal; lia.
Qed.

(** A run of at least six at the end of the history always hits a pattern,
    and the pattern bets on the other category. *)
Lemma run_of_six_match (natural_order : list bs) (c : bs) (k : nat) :
  count_streak natural_order = (Some c, k) -> 6 <= k ->
  exists s, find_pattern natural_order maps = Some (opposite c, s).
Proof.
  intros Hs Hk. rewrite find_pattern_lastn7.
  assert (Hc : forallb (fun l => match count_streak l with
                                 | (Some c, k) =>
                                     negb (6 <=? k) ||
                                     match find_pattern l maps with
                                     | Some (pr, _) => bs_eqb pr (opposite c)
                                     | None => false
                                     end
                                 | (None, _) => true
                                 end) (all_upto 7) = true) by (vm_compute; reflexivity).
  pose proof (check_all_upto 7 _ (lastn 7 natural_order) Hc) as H.
  rewrite lastn_length in H. specialize (H ltac:(lia)).
  rewrite (count_streak_lastn 7 natural_order ltac:(lia)), Hs in H. cbn [fst snd] in H.
  replace (6 <=? Nat.min 7 k) with true in H by (symmetry; apply Nat.leb_le; lia).
  cbn [negb orb] in H.
  destruct (find_pattern (lastn 7 natural_order) maps) as [[pr s]|]; [|discriminate H].
  apply bs_eqb_true in H. subst pr. exists s. reflexivity.
Qed.

(** ** Number selection *)

Lemma sort_desc_nil (l : list (nat * nat)) : sort_desc l = [] -> l = [].
Proof.
  destruct l as [|x l]; [reflexivity|]. cbn [sort_desc fold_right].
  destruct (fold_right insert_desc [] l) as [|y r]; cbn; [discriminate|].
  destruct (snd y <=? snd x); discriminate.
Qed.

Lemma filter_weighted (f : nat -> nat) (g : nat -> bool) (l : list nat) :
  filter (fun '(n, _) => g n) (map (fun n => (n, f n)) l) =
  map (fun n => (n, f n)) (filter g l).
Proof.
  induction l as [|x l IH]; [reflexivity|]. cbn [map filter].
  destruct (g x); cbn [map]; rewrite IH; reflexivity.
Qed.

Lemma StronglySorted_filter_lt (g : nat -> bool) (l : list nat) :
  StronglySorted lt l -> StronglySorted lt (filter g l).
Proof.
  induction l as [|x l IH]; intro H; [constructor|].
  apply StronglySorted_inv in H as [Hs Hf]. cbn [filter].
  destruct (g x); [|exact (IH Hs)].
  constructor; [exact (IH Hs)|].
  rewrite Forall_forall in Hf |- *. intros y Hy. apply filter_In in Hy. apply Hf, Hy.
Qed.

Lemma StronglySorted_seq (s k : nat) : StronglySorted lt (seq s k).
Proof.
  revert s. induction k as [|k IH]; intro s; [constructor|].
  cbn [seq]. constructor; [apply IH|].
  apply Forall_forall. intros y Hy. apply in_seq in Hy. lia.
Qed.

(** The head of the stable descending sort of [(n, f n)] over an ascending
    list: the first number with the highest score. *)
Lemma sort_desc_head (f : nat -> nat) (ns : list nat) (n s : nat)
    (rest : list (nat * nat)) :
  StronglySorted lt ns ->
  sort_desc (map (fun n => (n, f n)) ns) = (n, s) :: rest ->
  In n ns /\ s = f n /\ forall m, In m ns -> f m <= f n /\ (m < n -> f m < f n).
Proof.
  revert n s rest. induction ns as [|x xs IH]; intros n s rest Hsort Hs.
  { discriminate Hs. }
  apply StronglySorted_inv in Hsort as [Hsort Hx]. rewrite Forall_forall in Hx.
  cbn [map sort_desc fold_right] in Hs. fold (sort_desc (map (fun n => (n, f n)) xs)) in Hs.
  destruct (sort_desc (map (fun n => (n, f n)) xs)) as [|[n1 s1] r1] eqn:E.
  - apply sort_desc_nil in E. destruct xs; [|discriminate E].
    cbn in Hs. injection Hs as <- <- _.
    split; [left; reflexivity|]. split; [reflexivity|].
    intros m [<-|[]]. lia.
  - destruct (IH n1 s1 r1 Hsort eq_refl) as [Hin1 [Hs1 Hmax1]].
    cbn [insert_desc snd] in Hs. destruct (Nat.leb_spec s1 (f x)) as [Hle|Hlt].
    + injection Hs as <- <- _.
      split; [left; reflexivity|]. split; [reflexivity|].
      intros m [<-|Hm]; [lia|].
      specialize (Hx m Hm). specialize (Hmax1 m Hm). lia.
    + injection Hs as <- <- _.
      split; [right; exact Hin1|]. split; [exact Hs1|].
      intros m [<-|Hm]; [lia|exact (Hmax1 m Hm)].
Qed.

(** A lost value is dropped from the pool only when the newest prediction
    lost; the remaining numbers, in pool order. *)
Lemma select_num_weighted (nums : list nat) (preds : list pred) (c : bs) (k : nat) :
  select_num nums preds c = Some k ->
  let counted := lastn 60 nums in
  let last_10_nums := lastn 10 nums in
  let even_bias := 5 <? List.length (filter Nat.even last_10_nums) in
  let eligible n :=
    match preds with
    | p0 :: _ => negb (is_lose p0) || negb (opt_nat_eqb (Some n) (p_num p0))
    | [] => true
    end in
  match sort_desc (map (fun n => (n, score counted last_10_nums even_bias n))
                       (filter eligible (pool_of c))) with
  | (n, _) :: _ => k = n
  | [] => k = hd 0 (pool_of c)
  end.
Proof.
  unfold select_num. destruct (negb _); [discriminate|]. cbv zeta.
  set (f := score (lastn 60 nums) (lastn 10 nums)
                  (5 <? List.length (filter Nat.even (lastn 10 nums)))).
  destruct preds as [|p0 ps].
  - cbn iota beta; rewrite filter_true. destruct (sort_desc _) as [|[n s] r]; intros [= <-]; reflexivity.
  - destruct (is_lose p0) eqn:El; cbn [negb orb].
    + rewrite <- (filter_weighted f (fun n => negb (opt_nat_eqb (Some n) (p_num p0)))).
      destruct (sort_desc _) as [|[n s] r]; intros [= <-]; reflexivity.
    + cbn iota beta; rewrite filter_true. destruct (sort_desc _) as [|[n s] r]; intros [= <-]; reflexivity.
Qed.

(** ** The job *)

Lemma set_result_twice (p : pred) (r1 r2 : result) :
  set_result (set_result p r1) r2 = set_result p r2.
Proof. destruct p; reflexivity. Qed.

Lemma grade_set_result (p : pred) (r : result) (n : nat) (c : bs) :
  grade (set_result p r) n c = grade p n c.
Proof. destruct p; reflexivity. Qed.

Lemma grade_front_periods (period : string) (n : nat) (c : bs) (preds : list pred) :
  map p_period (grade_front period n c preds) = map p_period preds.
Proof.
  destruct preds as [|p ps]; [reflexivity|]. cbn [grade_front].
  destruct (String.eqb _ _); reflexivity.
Qed.

Lemma grade_front_length (period : string) (n : nat) (c : bs) (preds : list pred) :
  List.length (grade_front period n c preds) = List.length preds.
Proof.
  rewrite <- (length_map p_period), grade_front_periods, length_map. reflexivity.
Qed.

Lemma grade_front_idem (period : string) (n : nat) (c : bs) (preds : list pred) :
  grade_front period n c (grade_front period n c preds) = grade_front period n c preds.
Proof.
  destruct preds as [|p ps]; [reflexivity|]. cbn [grade_front].
  destruct (String.eqb (p_period p) period) eqn:E; cbn [grade_front].
  - replace (p_period (set_result p (grade p n c))) with (p_period p) by (destruct p; reflexivity).
    rewrite E, grade_set_result, set_result_twice. reflexivity.
  - rewrite E. reflexivity.
Qed.

Lemma next_period_fresh (period : string) (k : Z) :
  int_of_string period = Some k -> String.eqb (str_of_Z (k + 1)%Z) period = false.
Proof.
  intro H. apply String.eqb_neq. intro E. rewrite <- E, int_of_str_of_Z in H.
  injection H. lia.
Qed.

(** ** Further helper facts *)

Lemma run_length_le (c : bs) (l : list bs) : run_length c l <= List.length l.
Proof.
  induction l as [|x l IH]; [reflexivity|]. cbn [run_length].
  destruct (bs_eqb x c); cbn; lia.
Qed.

Lemma run_length_nth (c : bs) (l : list bs) :
  run_length c l < List.length l -> nth (run_length c l) l c <> c.
Proof.
  induction l as [|x l IH]; cbn [run_length]; [cbn; lia|].
  destruct (bs_eqb x c) eqn:E; cbn [nth List.length].
  - intro H. apply IH. lia.
  - intros _ Hx. subst x. destruct c; discriminate E.
Qed.

Lemma forallb_false_exists {A} (f : A -> bool) (l : list A) :
  forallb f l = false -> exists x, In x l /\ f x = false.
Proof.
  induction l as [|x l IH]; [discriminate|]. cbn [forallb].
  destruct (f x) eqn:E; cbn [andb].
  - intro H. destruct (IH H) as [y [Hy Hf]]. exists y. split; [right; exact Hy|exact Hf].
  - intros _. exists x. split; [left; reflexivity|exact E].
Qed.

Lemma select_num_none (nums : list nat) (preds : list pred) (c : bs) :
  select_num nums preds c = None <-> exists n, In n (lastn 60 nums) /\ 10 <= n.
Proof.
  unfold select_num. destruct (forallb (fun n => n <? 10) (lastn 60 nums)) eqn:E; cbn [negb].
  - cbv zeta. split.
    + destruct (sort_desc _) as [|[n s] r]; discriminate.
    + intros [n [Hn H10]]. rewrite forallb_forall in E. specialize (E n Hn).
      apply Nat.ltb_lt in E. lia.
  - split; [intros _|reflexivity].
    destruct (forallb_false_exists _ _ E) as [n [Hn Hf]]. exists n.
    split; [exact Hn|apply Nat.ltb_ge, Hf].
Qed.

(** The pool minus the lost value is never empty. *)
Lemma eligible_pool_nonempty (preds : list pred) (c : bs) :
  filter (fun n => match preds with
                   | p0 :: _ => negb (is_lose p0) || negb (opt_nat_eqb (Some n) (p_num p0))
                   | [] => true
                   end) (pool_of c) <> [].
Proof.
  set (g := fun n => _).
  assert (Hg : forall a b, g a = false -> g b = false -> a = b).
  { unfold g. intros a b. destruct preds as [|p0 ps]; [discriminate|].
    destruct (is_lose p0); cbn [negb orb]; [|discriminate].
    destruct (p_num p0) as [m|]; cbn [opt_nat_eqb negb]; [|discriminate].
    intros Ha Hb. apply negb_false_iff, Nat.eqb_eq in Ha, Hb. congruence. }
  assert (Hpool : exists a b rest, pool_of c = a :: b :: rest /\ a <> b)
    by (destruct c; cbn; do 3 eexists; (split; [reflexivity|lia])).
  destruct Hpool as [a [b [rest [-> Hab]]]]. cbn [filter].
  destruct (g a) eqn:Ea; [discriminate|]. destruct (g b) eqn:Eb; [discriminate|].
  exfalso. exact (Hab (Hg a b Ea Eb)).
Qed.

Lemma pool_sorted (c : bs) : StronglySorted lt (pool_of c).
Proof. destruct c; apply StronglySorted_seq. Qed.

(** The number the selection returns: the first eligible pool number with the
    highest score. *)
Lemma select_num_best (nums : list nat) (preds : list pred) (c : bs) (k : nat) :
  select_num nums preds c = Some k ->
  let sc := score (lastn 60 nums) (lastn 10 nums)
                  (5 <? List.length (filter Nat.even (lastn 10 nums))) in
  let eligible n :=
    match preds with
    | p0 :: _ => negb (is_lose p0) || negb (opt_nat_eqb (Some n) (p_num p0))
    | [] => true
    end in
  In k (pool_of c) /\ eligible k = true /\
  forall n, In n (pool_of c) -> eligible n = true -> sc n <= sc k /\ (n < k -> sc n < sc k).
Proof.
  intro H. pose proof (select_num_weighted nums preds c k H) as Hw. cbv zeta in Hw |- *.
  set (g := fun n => match preds with
                     | p0 :: _ => negb (is_lose p0) || negb (opt_nat_eqb (Some n) (p_num p0))
                     | [] => true
                     end) in *.
  set (sc := score (lastn 60 nums) (lastn 10 nums)
                   (5 <? List.length (filter Nat.even (lastn 10 nums)))) in *.
  destruct (sort_desc (map (fun n => (n, sc n)) (filter g (pool_of c))))
    as [|[n s] r] eqn:Es.
  - exfalso. apply sort_desc_nil in Es. apply map_eq_nil in Es.
    exact (eligible_pool_nonempty preds c Es).
  - subst k.
    destruct (sort_desc_head sc _ n s r
                (StronglySorted_filter_lt g _ (pool_sorted c)) Es) as [Hin [_ Hmax]].
    apply filter_In in Hin as [Hin Hg]. split; [exact Hin|]. split; [exact Hg|].
    intros m Hm Hgm. apply Hmax, filter_In. split; assumption.
Qed.

(** The value of the history deque after a cycle on an item with both keys. *)
Lemma job_trends (st : state) (period : string) (n : nat) (more : list (option content)) :
  trends (prediction_job (Ok (JList (Some (mkContent (Some period) (Some n)) :: more))) st) =
  appendleft 1000 (mkTrend period n (get_bs n)) (trends st).
Proof.
  unfold prediction_job. cbn [issueNumber number].
  destruct (int_of_string period) as [k|]; [|reflexivity].
  destruct (existsb _ _); [reflexivity|].
  destruct (dragonx_engine _ _ _); reflexivity.
Qed.

Lemma Forall_firstn_l {A} (P' : A -> Prop) (k : nat) (l : list A) :
  Forall P' l -> Forall P' (firstn k l).
Proof.
  rewrite !Forall_forall. intros H x Hx. apply H, (in_firstn_l k l x Hx).
Qed.

Lemma engine_no_alternating (nums : list nat) (bsl : list bs) (preds : list pred)
    (o : out) :
  List.length bsl = List.length nums ->
  dragonx_engine nums bsl preds = Some o ->
  o_logic o <> "ALTERNATING" /\ o_bias o <> "CHOP_BIAS".
Proof.
  intro Hlen. unfold dragonx_engine. destruct (List.length nums <? 10) eqn:Hc.
  { intros [= <-]. cbn. split; discriminate. }
  apply Nat.ltb_ge in Hc. cbv zeta. destruct (_ && _).
  { intros [= <-]. cbn. split; discriminate. }
  destruct (find_pattern (rev bsl) maps) as [[pr s]|] eqn:Ef.
  - destruct (find_pattern_facts _ _ _ Ef) as [_ [Hb Hs]]. cbv beta iota.
    destruct (select_num _ _ _); [|discriminate].
    intros [= <-]. cbn [o_logic o_bias]. rewrite Hb. split; [exact Hs|discriminate].
  - destruct (detect_alternating (lastn 10 (rev bsl))) eqn:Ed.
    { exfalso. apply (alternating_matches (rev bsl)).
      - rewrite length_rev. lia.
      - rewrite Ed. discriminate.
      - exact Ef. }
    destruct (fallback (rev bsl) (count_streak (rev bsl))) as [[pr s]|] eqn:Efb;
      [|discriminate].
    destruct (fallback_facts _ _ _ _ Efb) as [_ Hf].
    specialize (Hf Ed). cbv beta iota.
    destruct (select_num _ _ _); [|discriminate].
    intros [= <-]. exact Hf.
Qed.

Lemma grade_front_forall (Q : pred -> Prop) (period : string) (n : nat) (c : bs)
    (preds : list pred) :
  (forall p r, Q p -> Q (set_result p r)) ->
  Forall Q preds -> Forall Q (grade_front period n c preds).
Proof.
  intros HQ H. destruct preds as [|p ps]; [exact H|]. cbn [grade_front].
  destruct (String.eqb _ _); [|exact H].
  inversion H as [|? ? Hp Hps]; subst. constructor; [apply HQ, Hp|exact Hps].
Qed.

Lemma job_good (r : response) (st : state) :
  Forall good_pred (predictions st) -> Forall good_pred (predictions (prediction_job r st)).
Proof.
  intro H.
  assert (HQ : forall p r, good_pred p -> good_pred (set_result p r))
    by (intros [] ? Hp; exact Hp).
  unfold prediction_job.
  destruct r as [| | |[| |[|[latest|] more]]]; try exact H.
  destruct (issueNumber latest) as [period|]; [|exact H].
  destruct (number latest) as [num|]; [|exact H].
  destruct (int_of_string period) as [k|]; [|apply grade_front_forall; assumption].
  destruct (existsb _ _); [apply grade_front_forall; assumption|].
  destruct (dragonx_engine _ _ _) as [o|] eqn:Eo; [|apply grade_front_forall; assumption].
  cbn [predictions]. unfold appendleft. apply Forall_firstn_l. constructor.
  - split; [exact (engine_confidence_bound _ _ _ _ Eo)|].
    exact (engine_no_alternating _ _ _ _ (eq_trans (length_map _ _) (eq_sym (length_map _ _))) Eo).
  - apply grade_front_forall; assumption.
Qed.

(** ** Properties of the helpers *)

(** X1: [count_streak] returns [(None, 0)] on an empty sequence; otherwise it
    returns the last category [c] and the length [k] of the maximal run of
    [c] at the end: [1 <= k <= len], the last [k] items are [c], and the
    item just before them, if any, is not [c]. *)
Theorem count_streak_maximal_run (l : list bs) :
  match l with
  | [] => count_streak l = (None, 0)
  | _ :: _ =>
      exists c k, count_streak l = (Some c, k) /\ 1 <= k <= List.length l /\
        lastn k l = repeat c k /\
        (k < List.length l -> nth (List.length l - S k) l c <> c)
  end.
Proof.
  destruct l as [|x l']; [reflexivity|].
  set (l := x :: l').
  destruct (rev l) as [|y before] eqn:Er.
  { exfalso. apply (f_equal (@List.length bs)) in Er. rewrite length_rev in Er.
    cbn in Er. discriminate Er. }
  assert (Hcs : count_streak l = (Some y, 1 + run_length y before))
    by (unfold count_streak; rewrite Er; reflexivity).
  assert (Hlen : List.length l = S (List.length before))
    by (rewrite <- length_rev, Er; reflexivity).
  exists y, (1 + run_length y before). split; [exact Hcs|].
  pose proof (run_length_le y before) as Hle.
  split; [lia|]. split; [exact (count_streak_suffix l y _ _ Hcs (le_n _))|].
  intro Hk. rewrite Hlen in Hk |- *. rewrite <- (rev_involutive l), Er.
  rewrite rev_nth by (cbn; lia). cbn [List.length].
  replace (S (List.length before) - S (S (List.length before) - S (1 + run_length y before)))
    with (1 + run_length y before) by lia.
  cbn [nth Nat.add]. apply run_length_nth. lia.
Qed.

(** ** Properties of [dragonx_engine] *)

(** X3: with as many categories as values (as [prediction_job] passes
    them), the engine raises (here: returns [None]) exactly when it is past
    the cold start (at least 10 values), the dragon-risk gate does not fire,
    and some value among the last 60 is 10 or more ([counts[n]] is out of
    range); with values in 0..9 it always answers. *)
Theorem engine_fails_iff_value_out_of_range (nums : list nat) (bsl : list bs)
    (preds : list pred) :
  List.length bsl = List.length nums ->
  dragonx_engine nums bsl preds = None <->
  10 <= List.length nums /\
  ~ (6 <= snd (count_streak (rev bsl)) /\
     2 <= flip_losses (fst (count_streak (rev bsl))) preds) /\
  exists n, In n (lastn 60 nums) /\ 10 <= n.
Proof.
  intro Hlen. unfold dragonx_engine. destruct (List.length nums <? 10) eqn:E.
  { apply Nat.ltb_lt in E. split; [discriminate|intros [H _]; lia]. }
  apply Nat.ltb_ge in E. cbv zeta.
  destruct ((6 <=? snd (count_streak (rev bsl))) &&
            (2 <=? flip_losses (fst (count_streak (rev bsl))) preds)) eqn:Es.
  { split; [discriminate|]. intros [_ [Hn _]]. apply andb_prop in Es as [E1 E2].
    exfalso. apply Hn. split; apply Nat.leb_le; assumption. }
  destruct (match find_pattern _ _ with Some r => Some r | None => _ end)
    as [[prediction used_pattern]|] eqn:Ef.
  2:{ exfalso. destruct (find_pattern _ _); [discriminate|].
      assert (Hr : rev bsl <> []).
      { intro Er. apply (f_equal (@List.length bs)) in Er. rewrite length_rev in Er.
        cbn [List.length] in Er. lia. }
      destruct (fallback_some (rev bsl) (count_streak (rev bsl)) Hr) as [r' Hr'].
      congruence. }
  destruct (select_num nums preds prediction) eqn:Esel.
  - split; [discriminate|]. intros [_ [_ Hex]].
    apply (select_num_none nums preds prediction) in Hex. congruence.
  - split; [intros _|reflexivity]. split; [exact E|]. split.
    + intros [H1 H2]. apply Nat.leb_le in H1, H2. rewrite H1, H2 in Es. discriminate Es.
    + apply (select_num_none nums preds prediction), Esel.
Qed.

Lemma engine_fails_iff_value_out_of_range_witness :
  List.length hist5_bs = List.length [12; 2; 7; 7; 7; 7; 7; 7; 7; 7] /\
  dragonx_engine [12; 2; 7; 7; 7; 7; 7; 7; 7; 7] hist5_bs [] = None.
Proof.
  assert (Hl : List.length hist5_bs = List.length [12; 2; 7; 7; 7; 7; 7; 7; 7; 7])
    by reflexivity.
  split; [exact Hl|].
  apply (engine_fails_iff_value_out_of_range _ _ [] Hl).
  split; [cbn; lia|]. split.
  - vm_compute. intros [_ H]. lia.
  - exists 12. split; [vm_compute; left; reflexivity|lia].
Defined.

(** X4: past the cold start, when the newest observations form a run of at
    least six of one category, the engine either returns SKIP or bets on the
    other category: it never bets that such a run goes on. *)
Theorem run_of_six_never_continued (nums : list nat) (bsl : list bs)
    (preds : list pred) (c : bs) (k : nat) (o : out) :
  10 <= List.length nums ->
  count_streak (rev bsl) = (Some c, k) -> 6 <= k ->
  dragonx_engine nums bsl preds = Some o ->
  o_bs o = SKIP \/ o_bs o = Pred (opposite c).
Proof.
  intros Hn Hs Hk. unfold dragonx_engine.
  replace (List.length nums <? 10) with false by (symmetry; apply Nat.ltb_ge, Hn).
  cbv zeta. destruct (_ && _).
  { intros [= <-]. left. reflexivity. }
  destruct (run_of_six_match (rev bsl) c k Hs Hk) as [s ->]. cbv beta iota.
  destruct (select_num _ _ _); [|discriminate].
  intros [= <-]. right. reflexivity.
Qed.

Lemma run_of_six_never_continued_witness :
  exists o, dragonx_engine (repeat 7 10) (repeat Big 10) [] = Some o /\
    (o_bs o = SKIP \/ o_bs o = Pred (opposite Big)).
Proof.
  destruct (engine_some (repeat 7 10) (repeat Big 10) []) as [o Ho];
    [repeat constructor; lia|intro E; vm_compute in E; discriminate E|].
  exists o. split; [exact Ho|].
  apply (run_of_six_never_continued (repeat 7 10) (repeat Big 10) [] Big 10 o);
    [vm_compute; lia|vm_compute; reflexivity|lia|exact Ho].
Defined.

(** X5: when the category list is as long as the value list (as
    [prediction_job] passes them), the engine never answers with the
    ALTERNATING rationale nor the CHOP_BIAS bias: ten alternating categories
    always end in a catalogue pattern, which is looked up first. *)
Theorem engine_never_alternating (nums : list nat) (bsl : list bs) (preds : list pred)
    (o : out) :
  List.length bsl = List.length nums ->
  dragonx_engine nums bsl preds = Some o ->
  o_logic o <> "ALTERNATING" /\ o_bias o <> "CHOP_BIAS".
Proof. exact (engine_no_alternating nums bsl preds o). Qed.

Lemma engine_never_alternating_witness :
  exists o, dragonx_engine [2; 7; 2; 7; 2; 7; 2; 7; 2; 7]
              [Small; Big; Small; Big; Small; Big; Small; Big; Small; Big] [] = Some o /\
    o_logic o <> "ALTERNATING" /\ o_bias o <> "CHOP_BIAS".
Proof.
  destruct (engine_some [2; 7; 2; 7; 2; 7; 2; 7; 2; 7]
              [Small; Big; Small; Big; Small; Big; Small; Big; Small; Big] [])
    as [o Ho]; [repeat constructor; lia|intro E; vm_compute in E; discriminate E|].
  exists o. split; [exact Ho|].
  exact (engine_never_alternating [2; 7; 2; 7; 2; 7; 2; 7; 2; 7]
           [Small; Big; Small; Big; Small; Big; Small; Big; Small; Big] [] o eq_refl Ho).
Defined.

(** X6: the maps for 8, 9 and 10 digits are empty (the catalogue has no
    pattern longer than 7), so every confidence the engine returns is at most
    94; the values 95 to 98 never occur. *)
Theorem engine_confidence_at_most_94 (nums : list nat) (bsl : list bs)
    (preds : list pred) (o : out) :
  dragonx_engine nums bsl preds = Some o -> (o_confidence o <= 94)%Z.
Proof. exact (engine_confidence_bound nums bsl preds o). Qed.

Lemma engine_confidence_at_most_94_witness :
  exists o, dragonx_engine hist7_nums hist7_bs [] = Some o /\ (o_confidence o <= 94)%Z.
Proof.
  destruct (engine_some hist7_nums hist7_bs []) as [o Ho]; [repeat constructor; lia|intro E; vm_compute in E; discriminate E|].
  exists o. split; [exact Ho|]. exact (engine_confidence_at_most_94 _ _ _ o Ho).
Defined.

(** X7: past the cold start, when the newest prediction lost with value
    [m], the engine never suggests [m] again (the pool always keeps at least
    four other numbers). *)
Theorem engine_avoids_lost_number (nums : list nat) (bsl : list bs)
    (p0 : pred) (rest : list pred) (m : nat) (o : out) :
  10 <= List.length nums -> p_result p0 = Lose -> p_num p0 = Some m ->
  dragonx_engine nums bsl (p0 :: rest) = Some o ->
  o_num o <> Some m.
Proof.
  intros Hn Hl Hm. unfold dragonx_engine.
  replace (List.length nums <? 10) with false by (symmetry; apply Nat.ltb_ge, Hn).
  cbv zeta. destruct (_ && _).
  { intros [= <-]. discriminate. }
  destruct (match find_pattern _ _ with Some r => Some r | None => _ end)
    as [[prediction used_pattern]|]; [|discriminate].
  destruct (select_num nums (p0 :: rest) prediction) as [k|] eqn:Es; [|discriminate].
  intros [= <-]. cbn [o_num]. intros [= Hkm].
  destruct (select_num_best _ _ _ _ Es) as [_ [Hg _]]. cbv zeta in Hg.
  unfold is_lose in Hg. rewrite Hl, Hm in Hg. cbn [result_eqb negb orb opt_nat_eqb] in Hg.
  rewrite Hkm, Nat.eqb_refl in Hg. discriminate Hg.
Qed.

Lemma engine_avoids_lost_number_witness :
  exists o, dragonx_engine hist7_nums hist7_bs [lost_small "100"] = Some o /\
    o_num o <> Some 2.
Proof.
  destruct (engine_some hist7_nums hist7_bs [lost_small "100"]) as [o Ho];
    [repeat constructor; lia|intro E; vm_compute in E; discriminate E|].
  exists o. split; [exact Ho|].
  apply (engine_avoids_lost_number hist7_nums hist7_bs (lost_small "100") [] 2 o);
    [vm_compute; lia|reflexivity|reflexivity|exact Ho].
Defined.

(** X8: the number selection returns a pool number that is not the value of
    a newest lost prediction and whose score ([1 + count in the last 60],
    [+1.2] if among the last 10, [+0.7] for the favoured parity; here times
    ten) is the highest among the remaining pool numbers; on a tie the
    smallest such number wins, as the stable sort keeps pool order. *)
Theorem selected_number_best_score (nums : list nat) (preds : list pred) (c : bs)
    (k : nat) :
  select_num nums preds c = Some k ->
  let sc := score (lastn 60 nums) (lastn 10 nums)
                  (5 <? List.length (filter Nat.even (lastn 10 nums))) in
  let eligible n :=
    match preds with
    | p0 :: _ => negb (is_lose p0) || negb (opt_nat_eqb (Some n) (p_num p0))
    | [] => true
    end in
  In k (pool_of c) /\ eligible k = true /\
  forall n, In n (pool_of c) -> eligible n = true -> sc n <= sc k /\ (n < k -> sc n < sc k).
Proof. exact (select_num_best nums preds c k). Qed.

Lemma selected_number_best_score_witness :
  exists k, select_num hist7_nums [lost_small "100"] Small = Some k /\
  let sc := score (lastn 60 hist7_nums) (lastn 10 hist7_nums)
                  (5 <? List.length (filter Nat.even (lastn 10 hist7_nums))) in
  let eligible n :=
    match [lost_small "100"] with
    | p0 :: _ => negb (is_lose p0) || negb (opt_nat_eqb (Some n) (p_num p0))
    | [] => true
    end in
  In k (pool_of Small) /\ eligible k = true /\
  forall n, In n (pool_of Small) -> eligible n = true -> sc n <= sc k /\ (n < k -> sc n < sc k).
Proof.
  destruct (select_num_some hist7_nums [lost_small "100"] Small) as [k Hk];
    [vm_compute; reflexivity|].
  exists k. split; [exact Hk|]. exact (selected_number_best_score _ _ _ k Hk).
Defined.

(** ** Properties of [prediction_job] *)

(** X12: a cycle never creates a second prediction for a period: if the
    periods of the prediction log are distinct before, they are after. *)
Theorem job_keeps_periods_distinct (r : response) (st : state) :
  NoDup (map p_period (predictions st)) ->
  NoDup (map p_period (predictions (prediction_job r st))).
Proof.
  intro H. unfold prediction_job.
  destruct r as [| | |[| |[|[latest|] more]]]; try exact H.
  destruct (issueNumber latest) as [period|]; [|exact H].
  destruct (number latest) as [num|]; [|exact H].
  destruct (int_of_string period) as [k|]; [|cbn [predictions]; rewrite grade_front_periods; exact H].
  destruct (existsb _ _) eqn:Ex; [cbn [predictions]; rewrite grade_front_periods; exact H|].
  destruct (dragonx_engine _ _ _); cbn [predictions]; [|rewrite grade_front_periods; exact H].
  unfold appendleft. rewrite <- firstn_map. apply NoDup_firstn_l. cbn [map p_period].
  constructor; [|rewrite grade_front_periods; exact H].
  intro Hin. apply in_map_iff in Hin as [p [Hp Hin]].
  assert (Ht : existsb (fun p => String.eqb (p_period p) (str_of_Z (k + 1)%Z))
                 (grade_front period num (get_bs num) (predictions st)) = true).
  { apply existsb_exists. exists p. split; [exact Hin|]. rewrite Hp. apply String.eqb_refl. }
  rewrite Ht in Ex. discriminate Ex.
Qed.

Lemma job_keeps_periods_distinct_witness :
  let st := run [(100, 3); (101, 7)] empty_state in
  NoDup (map p_period (predictions st)) /\
  existsb (fun p => String.eqb (p_period p) (str_of_int 102)) (predictions st) = true /\
  NoDup (map p_period (predictions (prediction_job (obs_response 101 4) st))).
Proof.
  cbv zeta.
  assert (H : NoDup (map p_period (predictions (run [(100, 3); (101, 7)] empty_state)))).
  { vm_compute. constructor; [|constructor; [|constructor]].
    - intros [E|[]]. discriminate E.
    - intros []. }
  split; [exact H|]. split; [vm_compute; reflexivity|].
  exact (job_keeps_periods_distinct _ _ H).
Defined.

(** X13: when the feed presents the same first item again in the next
    cycle (values in 0..9), the prediction log is left as it was, while the
    history records the observation a second time. *)
Theorem repeated_observation_keeps_predictions (st : state) (period : string) (n : nat)
    (more : list (option content)) :
  Forall (fun t => t_num t < 10) (trends st) -> n < 10 ->
  let r := Ok (JList (Some (mkContent (Some period) (Some n)) :: more)) in
  predictions (prediction_job r (prediction_job r st)) = predictions (prediction_job r st) /\
  trends (prediction_job r (prediction_job r st)) =
  appendleft 1000 (mkTrend period n (get_bs n)) (trends (prediction_job r st)).
Proof.
  intros Ht Hn r. split; [|apply job_trends]. subst r.
  unfold prediction_job. cbn [issueNumber number].
  destruct (int_of_string period) as [k|] eqn:Hk.
  2:{ cbn [predictions]. rewrite grade_front_idem. reflexivity. }
  destruct (existsb (fun p => String.eqb (p_period p) (str_of_Z (k + 1)%Z))
              (grade_front period n (get_bs n) (predictions st))) eqn:Ex.
  { cbn [predictions trends]. rewrite grade_front_idem, Ex. reflexivity. }
  destruct (engine_some
              (map t_num (appendleft 1000 (mkTrend period n (get_bs n)) (trends st)))
              (map t_bs (appendleft 1000 (mkTrend period n (get_bs n)) (trends st)))
              (grade_front period n (get_bs n) (predictions st))) as [o Eo].
  { apply Forall_map. unfold appendleft. apply Forall_firstn_l. constructor; assumption. }
  { unfold appendleft. cbn [firstn map]. discriminate. }
  assert (Hg : forall np l, p_period np = str_of_Z (k + 1)%Z ->
            grade_front period n (get_bs n) (appendleft 200 np l) = appendleft 200 np l).
  { intros np l Hp. unfold appendleft. cbn [firstn grade_front].
    rewrite Hp, (next_period_fresh period k Hk). reflexivity. }
  assert (He : forall np l, p_period np = str_of_Z (k + 1)%Z ->
            existsb (fun p => String.eqb (p_period p) (str_of_Z (k + 1)%Z))
              (appendleft 200 np l) = true).
  { intros np l Hp. unfold appendleft. cbn [firstn existsb].
    rewrite Hp, String.eqb_refl. reflexivity. }
  rewrite Eo. cbn [predictions trends]. rewrite Hg, He by reflexivity. reflexivity.
Qed.

Lemma repeated_observation_keeps_predictions_witness :
  Forall (fun t => t_num t < 10) (trends empty_state) /\ 3 < 10 /\
  let r := Ok (JList [Some (mkContent (Some "100") (Some 3))]) in
  predictions (prediction_job r (prediction_job r empty_state)) =
  predictions (prediction_job r empty_state) /\
  trends (prediction_job r (prediction_job r empty_state)) =
  appendleft 1000 (mkTrend "100" 3 (get_bs 3)) (trends (prediction_job r empty_state)).
Proof.
  assert (H1 : Forall (fun t => t_num t < 10) (trends empty_state)) by constructor.
  assert (H2 : 3 < 10) by lia.
  split; [exact H1|]. split; [exact H2|].
  exact (repeated_observation_keeps_predictions empty_state "100" 3 [] H1 H2).
Defined.



(** X16: every prediction the service stores, over any sequence of feed
    answers from empty logs, has a confidence of at most 94, and none has
    the ALTERNATING rationale or the CHOP_BIAS bias. *)
Theorem stored_predictions_never_alternating (rs : list response) :
  Forall good_pred (predictions (run_all rs empty_state)).
Proof.
  assert (H : forall st, Forall good_pred (predictions st) ->
                         Forall good_pred (predictions (run_all rs st))).
  { induction rs as [|r rs IH]; intros st Hst; [exact Hst|].
    apply IH, job_good, Hst. }
  apply H. constructor.
Qed.
